(** * rsp_analyze: the RSP mode selector of neurokit2

    A shallow embedding of [neurokit2/rsp/rsp_analyze.py] and the properties
    of its dispatch between the event-related and the interval-related
    analysis.

    Conventions of the embedding:
    - Python [str] values are [string]; [str.lower] acts on the letters A-Z.
      A character outside ASCII never lowers to a letter of one of the
      recognised method names, so it cannot change which branch is taken.
    - [int / int] is Python's true division: the binary64 number nearest to
      the exact quotient, ties to even ([Num.round64]); division by zero
      raises.  A numpy count divided by a Python int converts both to
      binary64 first, and yields inf or nan with a RuntimeWarning on a
      zero divisor.
    - [len] returns less than 2^63, so no quotient of a row count comes
      near the largest binary64 number and [Num.round64] has no overflow
      case.
    - the local variables [colnames], [duration] and [features] may be read
      before any assignment: a local is an [option], and reading [None]
      raises [UnboundLocalError].
    - the two collaborators [rsp_eventrelated] and [rsp_intervalrelated] live
      in other modules of the package; they are parameters of the embedding
      and may raise and may change the program state, here [World].
    - a warning issued by pandas or numpy on a line of [rsp_analyze] changes
      the program state through [warn], a parameter as well. *)

From Stdlib Require Import String Ascii List Bool Arith ZArith QArith Qabs
  Qpower Qreduction Lia.
Import ListNotations.
Local Close Scope Q_scope.
Local Open Scope string_scope.
Local Open Scope list_scope.

(** ** Exceptions, warnings and results *)

Inductive Exception : Type :=
| ValueError (msg : string)
| UnboundLocalError (name : string)
| ZeroDivisionError
| IndexError
| KeyError (key : string)
| OtherError (descr : string).

Inductive Warning : Type :=
| RuntimeWarning
| FutureWarning.

Inductive Outcome (A : Type) : Type :=
| Return (a : A)
| Raise (e : Exception).

Arguments Return {A} a.
Arguments Raise {A} e.

Definition obind {A B : Type} (o : Outcome A) (f : A -> Outcome B) : Outcome B :=
  match o with
  | Return a => f a
  | Raise e => Raise e
  end.

(** Reading a local variable that may not have been assigned yet. *)
Definition read_local {A : Type} (name : string) (v : option A) : Outcome A :=
  match v with
  | Some a => Return a
  | None => Raise (UnboundLocalError name)
  end.

(** [for i in keys: body], threading the locals the body assigns. *)
Fixpoint for_in {S : Type} (keys : list string)
         (body : string -> S -> Outcome S) (s : S) : Outcome S :=
  match keys with
  | [] => Return s
  | i :: rest =>
      match body i s with
      | Return s' => for_in rest body s'
      | Raise e => Raise e
      end
  end.

(** ** Strings *)

Module Str.

Definition lower_ascii (c : ascii) : ascii :=
  let n := nat_of_ascii c in
  if (65 <=? n)%nat && (n <=? 90)%nat then ascii_of_nat (n + 32) else c.

(** [s.lower()] *)
Fixpoint lower (s : string) : string :=
  match s with
  | EmptyString => EmptyString
  | String c s' => String (lower_ascii c) (lower s')
  end.

(** [sub in s] for two strings: [sub] occurs somewhere in [s]. *)
Fixpoint contains (sub s : string) : bool :=
  prefix sub s ||
  match s with
  | EmptyString => false
  | String _ s' => contains sub s'
  end.

(** [x in l] for a list (or an Index) of strings. *)
Definition mem (x : string) (l : list string) : bool :=
  existsb (String.eqb x) l.

End Str.

(** ** Numbers *)

Module Num.

(** A binary64 value: a finite one, given by the rational it is, or one of
    the special values numpy produces on division by zero. *)
Inductive Float : Type :=
| Fin (q : Q)
| PosInf
| NaN.

(** The integer nearest to [p / r] for [r > 0]; of two equally near ones,
    the even one. *)
Definition rne (p r : Z) : Z :=
  let f := (p / r)%Z in
  let twice := (2 * (p mod r))%Z in
  if (twice <? r)%Z then f
  else if (r <? twice)%Z then (f + 1)%Z
  else if Z.even f then f else (f + 1)%Z.

Definition rne_Q (x : Q) : Z := rne (Qnum x) (QDen x).

(** The exponent of a positive rational: [2^e <= q < 2^(e+1)]. *)
Definition ilog2 (q : Q) : Z :=
  let e := (Z.log2 (Qnum q) - Z.log2 (QDen q))%Z in
  if Qle_bool (2 ^ e) q then e else (e - 1)%Z.

(** The binary64 number nearest to [q], ties to even: 53 significant bits,
    and below 2^-1022 the fixed spacing 2^-1074 of the subnormal numbers. *)
Definition round64 (q : Q) : Q :=
  let q := Qred q in
  if (Qnum q =? 0)%Z then 0%Q
  else
    let e := ilog2 (Qabs q) in
    let k := Z.max (e - 52) (-1074) in
    (inject_Z (rne_Q (q * 2 ^ (- k))) * 2 ^ k)%Q.

(** [a / b] on two Python ints. *)
Definition py_truediv (a b : Z) : Outcome Float :=
  if (b =? 0)%Z then Raise ZeroDivisionError
  else Return (Fin (round64 (inject_Z a / inject_Z b))).

(** [a / b] with [a] a numpy int64 count (never negative) and [b] a Python
    int that fits int64: both become binary64 numbers, which are divided.
    numpy warns on a zero divisor and yields inf or nan. *)
Definition np_truediv (a : nat) (b : Z) : list Warning * Float :=
  if (b =? 0)%Z then
    ([RuntimeWarning], if (a =? 0)%nat then NaN else PosInf)
  else
    ([], Fin (round64 (round64 (inject_Z (Z.of_nat a)) / round64 (inject_Z b)))).

(** [x >= 10] *)
Definition ge10 (x : Float) : bool :=
  match x with
  | Fin q => Qle_bool 10%Q q
  | PosInf => true
  | NaN => false
  end.

End Num.

(** ** The part of pandas the dispatcher touches *)

Module Pandas.

(** The cells of a "Label" column: strings, the epoch identifiers as
    [epochs_create] and [epochs_to_df] write them (dtype object), or
    integers (dtype int64). *)
Inductive LabelColumn : Type :=
| StrLabels (labels : list string)
| IntLabels (labels : list Z).

(** A DataFrame, reduced to what [rsp_analyze] reads from it:
    [columns] is [df.columns] in order, [nrows] is [len(df)], and
    [label_values] holds the cells of [df["Label"]] when that column
    exists. *)
Record DataFrame : Type := mkDataFrame {
  columns : list string;
  nrows : nat;
  label_values : LabelColumn
}.

(** What [series[0]] does when the index of the Series holds strings:
    pandas before 2.1 takes the integer key as a position, pandas 2.1 and
    2.2 do so with a FutureWarning, pandas 3 looks the key up as a label.
    When the index holds integers the key is a label in every version. *)
Inductive IntKey : Type :=
| PositionSilent
| PositionWarn
| LabelOnly.

Section Counts.

Context {A : Type}.
Variable eqb : A -> A -> bool.

Fixpoint count (v : A) (l : list A) : nat :=
  match l with
  | [] => 0
  | x :: r => (if eqb v x then 1 else 0) + count v r
  end.

(** The distinct values of a column, in order of first appearance. *)
Fixpoint unique (l : list A) : list A :=
  match l with
  | [] => []
  | x :: r => x :: filter (fun y => negb (eqb x y)) (unique r)
  end.

Fixpoint insert_desc (p : A * nat) (l : list (A * nat)) : list (A * nat) :=
  match l with
  | [] => [p]
  | q :: r =>
      if (snd q <=? snd p)%nat then p :: q :: r
      else q :: insert_desc p r
  end.

Definition sort_desc (l : list (A * nat)) : list (A * nat) :=
  fold_right insert_desc [] l.


(** [series.value_counts()]: one entry per distinct value, with the number
    of its occurrences, most frequent first. *)
Definition value_counts (l : list A) : list (A * nat) :=
  sort_desc (map (fun v => (v, count v l)) (unique l)).

(** [counts[0]] with the key taken as a position. *)
Definition at_position0 (counts : list (A * nat)) : Outcome nat :=
  match counts with
  | [] => Raise IndexError
  | (_, c) :: _ => Return c
  end.

(** [counts[key]] with the key taken as a label. *)
Definition at_label (shown : string) (key : A) (counts : list (A * nat))
  : Outcome nat :=
  match find (fun p => eqb key (fst p)) counts with
  | Some (_, c) => Return c
  | None => Raise (KeyError shown)
  end.

End Counts.

(** Line 104: [data["Label"].value_counts()[0]], with the warnings it
    issues on the way. *)
Definition value_counts_getitem0 (int_key : IntKey) (labels : LabelColumn)
  : list Warning * Outcome nat :=
  match labels with
  | IntLabels l => ([], at_label Z.eqb "0" 0%Z (value_counts Z.eqb l))
  | StrLabels l =>
      match int_key with
      | PositionSilent => ([], at_position0 (value_counts String.eqb l))
      | PositionWarn =>
          ([FutureWarning], at_position0 (value_counts String.eqb l))
      | LabelOnly => ([], Raise (KeyError "0"))
      end
  end.

End Pandas.

Import Pandas.

(** ** The input of the dispatcher *)

(** A dict of epochs keeps its insertion order; [for i in data] visits the
    keys in that order.  Keys of a dict are distinct. *)
Definition Epochs : Type := list (string * DataFrame).

Definition keys (d : Epochs) : list string := map fst d.

Fixpoint dict_get (d : Epochs) (i : string) : option DataFrame :=
  match d with
  | [] => None
  | (k, v) :: r => if String.eqb i k then Some v else dict_get r i
  end.

(** [data[i]] *)
Definition getitem (d : Epochs) (i : string) : Outcome DataFrame :=
  match dict_get d i with
  | Some v => Return v
  | None => Raise (KeyError i)
  end.

(** What the [isinstance] tests of [rsp_analyze] tell apart. *)
Inductive Data : Type :=
| DDict (d : Epochs)
| DFrame (df : DataFrame)
| DOther.

(** ** The dispatcher *)

(** Lines 74-78: the column names the sanity check looks at.  Each epoch
    visited assigns [colnames] again; data that is neither a dict nor a
    DataFrame leaves it unassigned. *)
Definition collect_colnames (data : Data) : Outcome (option (list string)) :=
  match data with
  | DDict d =>
      for_in (keys d)
             (fun i _ => obind (getitem d i) (fun e => Return (Some (columns e))))
             None
  | DFrame df => Return (Some (columns df))
  | DOther => Return None
  end.

(** Line 80: [len([i for i in colnames if "Label" in i]) == 0] *)
Definition no_label_column (colnames : list string) : bool :=
  (length (filter (fun i => Str.contains "Label" i) colnames) =? 0)%nat.

(** Lines 95-96: the duration of a dict of epochs. *)
Definition epochs_duration (d : Epochs) (sampling_rate : Z)
  : Outcome (option Num.Float) :=
  for_in (keys d)
         (fun i _ =>
            obind (getitem d i) (fun e =>
            obind (Num.py_truediv (Z.of_nat (nrows e)) sampling_rate) (fun q =>
            Return (Some q))))
         None.

(** Lines 103-107: the duration of a single table, after the warnings
    issued while it is computed. *)
Definition frame_duration (int_key : IntKey) (df : DataFrame)
           (sampling_rate : Z) : list Warning * Outcome Num.Float :=
  if Str.mem "Label" (columns df) then
    match value_counts_getitem0 int_key (label_values df) with
    | (ws, Return epoch_len) =>
        let (ws', duration) := Num.np_truediv epoch_len sampling_rate in
        (ws ++ ws', Return duration)
    | (ws, Raise e) => (ws, Raise e)
    end
  else
    ([], Num.py_truediv (Z.of_nat (nrows df)) sampling_rate).

Definition wrong_input_msg : string :=
  "NeuroKit error: rsp_analyze(): Wrong input or method, we couldn't extract extract epochs features.".

Section RspAnalyze.

(** The program state the collaborators may read and change, and the
    table of features they return. *)
Variable World : Type.
Variable Features : Type.

(** What issuing a warning does to the program state. *)
Variable warn : Warning -> World -> World.

(** The pandas in use, as far as line 104 depends on it. *)
Variable int_key : IntKey.

Definition M (A : Type) : Type := World -> Outcome A * World.

Definition ret {A : Type} (a : A) : M A := fun w => (Return a, w).

Definition raise {A : Type} (e : Exception) : M A := fun w => (Raise e, w).

Definition lift {A : Type} (o : Outcome A) : M A := fun w => (o, w).

Definition bind {A B : Type} (m : M A) (f : A -> M B) : M B :=
  fun w =>
    match m w with
    | (Return a, w') => f a w'
    | (Raise e, w') => (Raise e, w')
    end.

(** The state after the warnings [ws], issued in this order. *)
Definition warned (ws : list Warning) (w : World) : World :=
  fold_left (fun w' x => warn x w') ws w.

(** A computation of the dispatcher's own that issues warnings. *)
Definition noisy {A : Type} (c : list Warning * Outcome A) : M A :=
  fun w => (snd c, warned (fst c) w).

Notation "x <- m ;; k" := (bind m (fun x => k))
  (at level 61, m at next level, right associativity).

(** [rsp_eventrelated(data, subepoch_rate=...)] and
    [rsp_intervalrelated(data, sampling_rate)] *)
Variable rsp_eventrelated : Data -> list (option Q) -> M Features.
Variable rsp_intervalrelated : Data -> Z -> M Features.

(** Lines 97-100 and 108-111. *)
Definition by_duration (duration : Num.Float) (data : Data)
           (sampling_rate : Z) (subepoch_rate : list (option Q)) : M Features :=
  if Num.ge10 duration then rsp_intervalrelated data sampling_rate
  else rsp_eventrelated data subepoch_rate.

(** Lines 69-113.  A dict is no DataFrame, so of the two [isinstance]
    blocks of the automatic branch (lines 94 and 102) at most one runs;
    they are the cases of one [match]. *)
Definition rsp_analyze (data : Data) (sampling_rate : Z) (method : string)
           (subepoch_rate : list (option Q)) : M Features :=
  let method := Str.lower method in
  features <-
    (* Event-related analysis *)
    (if Str.mem method ["event-related"; "event"; "epoch"] then
       (* Sanity checks *)
       colnames <- lift (collect_colnames data) ;;
       colnames <- lift (read_local "colnames" colnames) ;;
       if no_label_column colnames then
         raise (ValueError wrong_input_msg)
       else
         f <- rsp_eventrelated data subepoch_rate ;;
         ret (Some f)
     (* Interval-related analysis *)
     else if Str.mem method ["interval-related"; "interval"; "resting-state"] then
       f <- rsp_intervalrelated data sampling_rate ;;
       ret (Some f)
     (* Auto *)
     else if Str.mem method ["auto"] then
       match data with
       | DDict d =>
           duration <- lift (epochs_duration d sampling_rate) ;;
           duration <- lift (read_local "duration" duration) ;;
           f <- by_duration duration data sampling_rate subepoch_rate ;;
           ret (Some f)
       | DFrame df =>
           duration <- noisy (frame_duration int_key df sampling_rate) ;;
           f <- by_duration duration data sampling_rate subepoch_rate ;;
           ret (Some f)
       | DOther => ret None
       end
     else ret None) ;;
  (* return features *)
  lift (read_local "features" features).

(** What the event-related branch does once [colnames] is known. *)
Definition checked (cols : list string) (data : Data)
           (subepoch_rate : list (option Q)) (w : World)
  : Outcome Features * World :=
  if no_label_column cols then (Raise (ValueError wrong_input_msg), w)
  else rsp_eventrelated data subepoch_rate w.

End RspAnalyze.

Arguments rsp_analyze {World Features}.
Arguments by_duration {World Features}.
Arguments checked {World Features}.
Arguments warned {World}.
Arguments noisy {World} warn {A}.
Arguments bind {World A B}.
Arguments ret {World A}.
Arguments raise {World A}.
Arguments lift {World A}.

(** ** A concrete pair of collaborators

    The state is the log of the calls made and the warnings issued so far;
    each collaborator records its call and returns the name of the
    analysis it stands for. *)

Module Demo.

Definition World : Type := list string.
Definition Features : Type := string.

Definition warn (x : Warning) (w : World) : World :=
  match x with
  | RuntimeWarning => "RuntimeWarning" :: w
  | FutureWarning => "FutureWarning" :: w
  end.

Definition rsp_eventrelated (data : Data) (subepoch_rate : list (option Q))
  : M World Features :=
  fun w => (Return "event-related features", "rsp_eventrelated" :: w).

Definition rsp_intervalrelated (data : Data) (sampling_rate : Z)
  : M World Features :=
  fun w => (Return "interval-related features", "rsp_intervalrelated" :: w).

(** [rsp_analyze] on a given pandas. *)
Definition analyze_on (int_key : IntKey) (data : Data) (sampling_rate : Z)
           (method : string) (subepoch_rate : list (option Q))
  : M World Features :=
  rsp_analyze warn int_key rsp_eventrelated rsp_intervalrelated
              data sampling_rate method subepoch_rate.

(** [rsp_analyze] on the pandas of the time the code was written. *)
Definition analyze (data : Data) (sampling_rate : Z) (method : string)
           (subepoch_rate : list (option Q)) : M World Features :=
  analyze_on PositionSilent data sampling_rate method subepoch_rate.

(** A table of [n] rows with the given columns and string labels. *)
Definition table (cols : list string) (n : nat) (labels : list string) : Data :=
  DFrame (mkDataFrame cols n (StrLabels labels)).

Definition epoch (cols : list string) (n : nat) : DataFrame :=
  mkDataFrame cols n (StrLabels (repeat "1" n)).

(** Two epochs of three samples; only the first has a "Label" column. *)
Definition label_in_first_epoch_only : Epochs :=
  [("1", epoch ["Label"; "RSP_Rate"] 3); ("2", epoch ["RSP_Rate"] 3)].

(** One second and twenty seconds of signal at 100 Hz. *)
Definition short_then_long : Epochs :=
  [("1", epoch ["RSP_Rate"; "Label"] 100);
   ("2", epoch ["RSP_Rate"; "Label"] 2000)].

(** The default of [subepoch_rate]. *)
Definition no_subepoch : list (option Q) := [None; None].

(** All epochs of a recording in one table, five rows, three of the first
    epoch and two of the second. *)
Definition five_rows (labels : LabelColumn) : DataFrame :=
  mkDataFrame ["RSP_Rate"; "Label"] 5 labels.

End Demo.

(** ** What the specification says, in its own words *)

(** The method names the dispatcher recognises, after lowercasing. *)
Definition event_synonyms : list string := ["event-related"; "event"; "epoch"].

Definition interval_synonyms : list string :=
  ["interval-related"; "interval"; "resting-state"].

Definition recognised (method : string) : Prop :=
  In (Str.lower method) event_synonyms \/
  In (Str.lower method) interval_synonyms \/
  Str.lower method = "auto".

(** "Collect column names from the input (from every epoch table if a
    mapping ...)". *)
Definition columns_of_every_epoch (d : Epochs) : list string :=
  flat_map (fun kv => columns (snd kv)) d.

(** The sanity check looks at the columns of every epoch of [d]. *)
Definition checks_every_epoch (d : Epochs) : Prop :=
  forall cols, collect_colnames (DDict d) = Return (Some cols) ->
  forall k e c, In (k, e) d -> In c (columns e) -> In c cols.




(** * Properties *)

(** ** Strings *)



Lemma mem_true_iff (x : string) (l : list string) :
  Str.mem x l = true <-> In x l.
Proof.
  unfold Str.mem. rewrite existsb_exists. split.
  - intros [y [Hy Heq]]. apply String.eqb_eq in Heq. now subst.
  - intros H. exists x. split; [assumption | apply String.eqb_refl].
Qed.

Lemma no_label_column_true_iff (cols : list string) :
  no_label_column cols = true <->
  forall c, In c cols -> Str.contains "Label" c = false.
Proof.
  unfold no_label_column. rewrite Nat.eqb_eq. split.
  - intros H c Hc. apply length_zero_iff_nil in H.
    destruct (Str.contains "Label" c) eqn:E; [|reflexivity].
    assert (Hin : In c (filter (fun i => Str.contains "Label" i) cols))
      by (apply filter_In; split; assumption).
    rewrite H in Hin. destruct Hin.
  - intros H. induction cols as [|c cols IH]; simpl.
    + reflexivity.
    + rewrite (H c (or_introl eq_refl)). apply IH.
      intros c' Hc'. apply H. now right.
Qed.

(** ** Loops and dicts *)

Lemma for_in_app {S : Type} (ks1 ks2 : list string)
      (body : string -> S -> Outcome S) (s : S) :
  for_in (ks1 ++ ks2) body s =
  obind (for_in ks1 body s) (for_in ks2 body).
Proof.
  revert s. induction ks1 as [|i ks1 IH]; intros s; simpl.
  - reflexivity.
  - destruct (body i s) as [s'|e]; [apply IH | reflexivity].
Qed.

Lemma for_in_returns {S : Type} (ks : list string)
      (body : string -> S -> Outcome S) :
  (forall i s, In i ks -> exists s', body i s = Return s') ->
  forall s, exists s', for_in ks body s = Return s'.
Proof.
  induction ks as [|i ks IH]; intros Hbody s; simpl.
  - now exists s.
  - destruct (Hbody i s (or_introl eq_refl)) as [s' Hs']. rewrite Hs'.
    apply IH. intros j t Hj. apply Hbody. now right.
Qed.

Lemma dict_get_in (d : Epochs) (i : string) :
  In i (keys d) -> exists e, dict_get d i = Some e.
Proof.
  induction d as [|[k v] d IH]; simpl; intros H.
  - destruct H.
  - destruct (String.eqb i k) eqn:E.
    + now exists v.
    + destruct H as [H|H].
      * subst k. now rewrite String.eqb_refl in E.
      * now apply IH.
Qed.

Lemma dict_get_last (d : Epochs) (k : string) (e : DataFrame) :
  NoDup (keys (d ++ [(k, e)])) -> dict_get (d ++ [(k, e)]) k = Some e.
Proof.
  induction d as [|[k' v] d IH]; simpl; intros H.
  - now rewrite String.eqb_refl.
  - inversion H as [|? ? Hnotin Hnodup]; subst.
    destruct (String.eqb k k') eqn:E.
    + apply String.eqb_eq in E. subst k'. exfalso. apply Hnotin.
      unfold keys. rewrite map_app. apply in_or_app. right. now left.
    + now apply IH.
Qed.

Lemma keys_app_last (d : Epochs) (k : string) (e : DataFrame) :
  keys (d ++ [(k, e)]) = keys d ++ [k].
Proof. unfold keys. now rewrite map_app. Qed.

(** A loop whose body fetches [data[i]] and assigns one local from it ends
    with the value computed from the last epoch. *)
Lemma for_in_last_epoch {A : Type} (f : DataFrame -> Outcome A)
      (d : Epochs) (k : string) (e : DataFrame) :
  NoDup (keys (d ++ [(k, e)])) ->
  (forall e', exists a, f e' = Return a) ->
  for_in (keys (d ++ [(k, e)]))
         (fun i _ => obind (getitem (d ++ [(k, e)]) i)
                           (fun e' => obind (f e') (fun a => Return (Some a))))
         None
  = obind (f e) (fun a => Return (Some a)).
Proof.
  intros Hnodup Hf. rewrite keys_app_last at 1. rewrite for_in_app.
  match goal with
  | |- obind (for_in ?ks ?body ?s0) _ = _ =>
      assert (Hloop : exists s', for_in ks body s0 = Return s');
      [apply for_in_returns | destruct Hloop as [s' Hs']]
  end.
  - intros i s Hi. unfold getitem.
    destruct (dict_get_in (d ++ [(k, e)]) i) as [e' He'].
    { rewrite keys_app_last. apply in_or_app. now left. }
    rewrite He'. simpl. destruct (Hf e') as [a Ha]. rewrite Ha. simpl.
    now exists (Some a).
  - rewrite Hs'. simpl. unfold getitem. rewrite (dict_get_last _ _ _ Hnodup).
    simpl. destruct (f e); reflexivity.
Qed.


(** ** [value_counts]: the first entry is the most frequent value *)

Section CountsFacts.

Context {A : Type}.
Variable eqb : A -> A -> bool.
Hypothesis eqb_eq : forall x y, eqb x y = true <-> x = y.

Lemma insert_desc_in (p x : A * nat) (l : list (A * nat)) :
  In x (insert_desc p l) <-> x = p \/ In x l.
Proof.
  induction l as [|q r IH]; simpl.
  - intuition congruence.
  - destruct (snd q <=? snd p)%nat; simpl.
    + intuition congruence.
    + rewrite IH. intuition congruence.
Qed.


Lemma sort_desc_in (x : A * nat) (l : list (A * nat)) :
  In x (sort_desc l) <-> In x l.
Proof.
  induction l as [|p l IH]; simpl.
  - reflexivity.
  - rewrite insert_desc_in, IH. intuition congruence.
Qed.


Lemma unique_in (x : A) (l : list A) :
  In x (unique eqb l) <-> In x l.
Proof.
  induction l as [|y l IH]; simpl.
  - reflexivity.
  - rewrite filter_In, IH. split.
    + intros [H|[H _]]; [now left | now right].
    + intros [H|H]; [now left|].
      destruct (eqb y x) eqn:E.
      * apply eqb_eq in E. now left.
      * right. split; [assumption | reflexivity].
Qed.

Lemma value_counts_in (v : A) (c : nat) (l : list A) :
  In (v, c) (value_counts eqb l) <-> In v l /\ c = count eqb v l.
Proof.
  unfold value_counts. rewrite sort_desc_in, in_map_iff. split.
  - intros [x [Hx Hin]]. inversion Hx; subst.
    apply (proj1 (unique_in v l)) in Hin. now split.
  - intros [Hin Hc]. exists v. subst c. split; [reflexivity|].
    now apply unique_in.
Qed.




(** Looked up as a label, a key gives the count of that very value, and
    raises when the value does not occur. *)
Lemma at_label_value_counts (shown : string) (key : A) (l : list A) :
  (In key l ->
   at_label eqb shown key (value_counts eqb l) = Return (count eqb key l)) /\
  (~ In key l ->
   at_label eqb shown key (value_counts eqb l) = Raise (KeyError shown)).
Proof.
  unfold at_label.
  destruct (find (fun p => eqb key (fst p)) (value_counts eqb l))
    as [[v c]|] eqn:E.
  - apply find_some in E. destruct E as [Hin Hkey]. simpl in Hkey.
    apply eqb_eq in Hkey. subst v.
    apply value_counts_in in Hin. destruct Hin as [Hin Hc]. subst c.
    split; [reflexivity | intros H; now destruct H].
  - split; [|reflexivity]. intros Hin. exfalso.
    assert (H : In (key, count eqb key l) (value_counts eqb l))
      by (apply value_counts_in; now split).
    pose proof (find_none _ _ E _ H) as Hnone. simpl in Hnone.
    assert (Hrefl : eqb key key = true) by now apply eqb_eq.
    congruence.
Qed.

End CountsFacts.

(** ** Rounding to binary64 *)


Lemma rne_ge_even (p r N : Z) :
  (0 < r)%Z -> Z.even N = true ->
  ((N <= Num.rne p r)%Z <-> ((2 * N - 1) * r <= 2 * p)%Z).
Proof.
  intros Hr HN. unfold Num.rne.
  pose proof (Z.div_mod p r ltac:(lia)) as Hdiv.
  pose proof (Z.mod_pos_bound p r Hr) as Hmod.
  set (f := (p / r)%Z) in *. set (m := (p mod r)%Z) in *.
  apply Z.even_spec in HN. destruct HN as [n HN].
  destruct (2 * m <? r)%Z eqn:E1.
  - apply Z.ltb_lt in E1. split; intros H; nia.
  - apply Z.ltb_ge in E1. destruct (r <? 2 * m)%Z eqn:E2.
    + apply Z.ltb_lt in E2. split; intros H; nia.
    + apply Z.ltb_ge in E2. assert (Hhalf : r = (2 * m)%Z) by lia.
      destruct (Z.even f) eqn:E3.
      * apply Z.even_spec in E3. destruct E3 as [g E3].
        split; intros H; nia.
      * assert (Hodd : Z.odd f = true)
          by (rewrite <- Z.negb_even, E3; reflexivity).
        apply Z.odd_spec in Hodd. destruct Hodd as [g Hodd].
        split; intros H; nia.
Qed.

Lemma rne_nonpos (p r : Z) :
  (0 < r)%Z -> (p <= 0)%Z -> (Num.rne p r <= 0)%Z.
Proof.
  intros Hr Hp. unfold Num.rne.
  pose proof (Z.div_mod p r ltac:(lia)) as Hdiv.
  pose proof (Z.mod_pos_bound p r Hr) as Hmod.
  set (f := (p / r)%Z) in *. set (m := (p mod r)%Z) in *.
  assert (Hf : (f <= 0)%Z) by nia.
  destruct (2 * m <? r)%Z eqn:E1; [lia|].
  apply Z.ltb_ge in E1.
  assert (Hf1 : (f + 1 <= 0)%Z) by nia.
  destruct (r <? 2 * m)%Z; [lia|]. destruct (Z.even f); lia.
Qed.


Lemma rne_Q_ge_even (x : Q) (N : Z) :
  Z.even N = true ->
  ((N <= Num.rne_Q x)%Z <-> (inject_Z N - (1 # 2) <= x)%Q).
Proof.
  intros HN. unfold Num.rne_Q.
  rewrite (rne_ge_even (Qnum x) (QDen x) N) by (try assumption; reflexivity).
  destruct x as [p r]. unfold Qle, Qminus, Qplus, Qopp, inject_Z.
  cbn [Qnum Qden]. rewrite ?Pos2Z.inj_mul.
  split; intros H; lia.
Qed.

Lemma rne_Q_nonpos (x : Q) : (x <= 0)%Q -> (Num.rne_Q x <= 0)%Z.
Proof.
  intros H. unfold Num.rne_Q. apply rne_nonpos; [reflexivity|].
  destruct x as [p r]. unfold Qle in H. simpl in *. lia.
Qed.


Lemma two_pow_pos (e : Z) : (0 < 2 ^ e)%Q.
Proof. apply Qpower_0_lt. reflexivity. Qed.

Lemma two_pow_plus (n m : Z) : (2 ^ (n + m) == 2 ^ n * 2 ^ m)%Q.
Proof. apply Qpower_plus. discriminate. Qed.

Lemma two_pow_inject (n : Z) : (0 <= n)%Z -> (inject_Z (2 ^ n) == 2 ^ n)%Q.
Proof. intros H. now rewrite Zpower_Qpower. Qed.

Lemma two_pow_le (n m : Z) : (n <= m)%Z -> (2 ^ n <= 2 ^ m)%Q.
Proof. intros H. apply Qpower_le_compat_l; [assumption | discriminate]. Qed.

Lemma log2_bounds_Q (a : Z) :
  (0 < a)%Z ->
  (2 ^ Z.log2 a <= inject_Z a)%Q /\ (inject_Z a < 2 ^ (Z.log2 a + 1))%Q.
Proof.
  intros Ha. destruct (Z.log2_spec a Ha) as [Hlo Hhi].
  pose proof (Z.log2_nonneg a) as Hnn. split.
  - rewrite <- two_pow_inject by assumption. now rewrite <- Zle_Qle.
  - rewrite <- two_pow_inject by lia. rewrite <- Zlt_Qlt.
    now rewrite <- Z.add_1_r in Hhi.
Qed.

Lemma ilog2_spec (q : Q) :
  (0 < q)%Q ->
  (2 ^ Num.ilog2 q <= q)%Q /\ (q < 2 ^ (Num.ilog2 q + 1))%Q.
Proof.
  intros Hq. unfold Num.ilog2.
  assert (Ha : (0 < Qnum q)%Z).
  { destruct q as [a b]. unfold Qlt in Hq. simpl in *. lia. }
  destruct (log2_bounds_Q (Qnum q) Ha) as [Halo Hahi].
  destruct (log2_bounds_Q (QDen q) eq_refl) as [Hblo Hbhi].
  set (la := Z.log2 (Qnum q)) in *. set (lb := Z.log2 (QDen q)) in *.
  assert (HB : (0 < inject_Z (QDen q))%Q) by reflexivity.
  assert (Hdiv : (q == inject_Z (Qnum q) / inject_Z (QDen q))%Q).
  { destruct q as [a b]. apply Qmake_Qdiv. }
  destruct (Qle_bool (2 ^ (la - lb)) q) eqn:E.
  - split; [now apply Qle_bool_iff|].
    rewrite Hdiv. apply Qlt_shift_div_r; [exact HB|].
    apply Qlt_le_trans with (2 ^ (la + 1))%Q; [exact Hahi|].
    replace (la + 1)%Z with ((la - lb + 1) + lb)%Z by lia.
    rewrite two_pow_plus. apply Qmult_le_l; [apply two_pow_pos | exact Hblo].
  - split.
    + rewrite Hdiv. apply Qle_shift_div_l; [exact HB|].
      apply Qle_trans with (2 ^ la)%Q; [|exact Halo].
      replace la with ((la - lb - 1) + (lb + 1))%Z at 2 by lia.
      rewrite two_pow_plus. apply Qmult_le_l; [apply two_pow_pos|].
      now apply Qlt_le_weak.
    + replace (la - lb - 1 + 1)%Z with (la - lb)%Z by lia.
      apply Qnot_le_lt. intros H. apply Qle_bool_iff in H. congruence.
Qed.


(** Rounding to a multiple of [2^k], for [k <= -1], against the bound 10. *)
Lemma scaled_rne_ge10 (q : Q) (k : Z) :
  (k <= -1)%Z ->
  ((10 <= inject_Z (Num.rne_Q (q * 2 ^ (- k))) * 2 ^ k)%Q <->
   (10 - (1 # 2) * 2 ^ k <= q)%Q).
Proof.
  intros Hk.
  set (t := (2 ^ (- k))%Z).
  assert (HT : (2 ^ (- k) == inject_Z t)%Q)
    by (unfold t; now rewrite two_pow_inject by lia).
  assert (HTpos : (0 < 2 ^ (- k))%Q) by apply two_pow_pos.
  assert (Hinv : (2 ^ k * 2 ^ (- k) == 1)%Q).
  { rewrite <- two_pow_plus. now replace (k + - k)%Z with 0%Z by lia. }
  assert (Heven : Z.even (10 * t) = true).
  { rewrite Z.even_mul. reflexivity. }
  set (m := Num.rne_Q (q * 2 ^ (- k))).
  rewrite <- (Qmult_le_r _ _ (2 ^ (- k))%Q HTpos).
  setoid_replace (inject_Z m * 2 ^ k * 2 ^ (- k))%Q with (inject_Z m)
    by (rewrite <- Qmult_assoc, Hinv; ring).
  setoid_replace (10 * 2 ^ (- k))%Q with (inject_Z (10 * t))
    by (rewrite inject_Z_mult, HT; reflexivity).
  rewrite <- Zle_Qle. unfold m.
  rewrite (rne_Q_ge_even _ _ Heven).
  rewrite <- (Qmult_le_r (10 - (1 # 2) * 2 ^ k)%Q q (2 ^ (- k))%Q HTpos).
  setoid_replace ((10 - (1 # 2) * 2 ^ k) * 2 ^ (- k))%Q
    with (inject_Z (10 * t) - (1 # 2))%Q; [reflexivity|].
  rewrite inject_Z_mult, <- HT.
  setoid_replace ((10 - (1 # 2) * 2 ^ k) * 2 ^ (- k))%Q
    with (10 * 2 ^ (- k) - (1 # 2) * (2 ^ k * 2 ^ (- k)))%Q by ring.
  rewrite Hinv. setoid_replace (inject_Z 10) with 10%Q by reflexivity. ring.
Qed.

Lemma round64_ge10_iff (q : Q) :
  (10 <= Num.round64 q)%Q <-> (10 - 2 ^ (-50) <= q)%Q.
Proof.
  assert (Hrhs : (10 - 2 ^ (-50) <= q)%Q <-> (10 - 2 ^ (-50) <= Qred q)%Q)
    by (now rewrite Qred_correct).
  rewrite Hrhs. clear Hrhs. unfold Num.round64.
  generalize (Qred q). clear q. intros q.
  destruct (Qnum q =? 0)%Z eqn:E0.
  { apply Z.eqb_eq in E0.
    assert (Hq : (q == 0)%Q) by (destruct q as [a b]; simpl in E0; now subst a).
    rewrite Hq. split; intros H; discriminate H || (exfalso; now apply H). }
  apply Z.eqb_neq in E0.
  destruct (Z.lt_ge_cases (Qnum q) 0) as [Hneg|Hpos].
  - (* a negative quotient rounds to a number that is not positive *)
    assert (Hq : (q < 0)%Q).
    { destruct q as [a b]. unfold Qlt. simpl in *. lia. }
    set (k := Z.max (Num.ilog2 (Qabs q) - 52) (-1074)).
    assert (Hm : (Num.rne_Q (q * 2 ^ (- k)) <= 0)%Z).
    { apply rne_Q_nonpos.
      setoid_replace 0%Q with (0 * 2 ^ (- k))%Q by ring.
      apply Qmult_le_compat_r; [now apply Qlt_le_weak|].
      apply Qlt_le_weak, two_pow_pos. }
    assert (Hr : (inject_Z (Num.rne_Q (q * 2 ^ (- k))) * 2 ^ k <= 0)%Q).
    { setoid_replace 0%Q with (0 * 2 ^ k)%Q by ring.
      apply Qmult_le_compat_r.
      - change 0%Q with (inject_Z 0). now rewrite <- Zle_Qle.
      - apply Qlt_le_weak, two_pow_pos. }
    split; intros H; exfalso.
    + apply (Qle_not_lt _ _ (Qle_trans _ _ _ H Hr)). reflexivity.
    + apply (Qle_not_lt _ _ H).
      apply Qlt_trans with 0%Q; [exact Hq | reflexivity].
  - assert (Ha : (0 < Qnum q)%Z) by lia.
    assert (Hq : (0 < q)%Q).
    { destruct q as [a b]. unfold Qlt. simpl in *. lia. }
    assert (Habs : Qabs q = q).
    { destruct q as [a b]. simpl in *. now rewrite Z.abs_eq by lia. }
    rewrite Habs.
    destruct (ilog2_spec q Hq) as [Hlo Hhi].
    set (e := Num.ilog2 q) in *.
    destruct (Z.le_gt_cases e 3) as [Hsmall|Hbig].
    + (* below 16 the spacing is at most 2^-49 *)
      set (k := Z.max (e - 52) (-1074)).
      assert (Hk : (k <= -49)%Z) by lia.
      rewrite (scaled_rne_ge10 q k) by lia.
      destruct (Z.eq_dec e 3) as [He|He].
      * replace k with (-49)%Z by lia. reflexivity.
      * assert (Hq8 : (q < 8)%Q).
        { apply Qlt_le_trans with (2 ^ (e + 1))%Q; [exact Hhi|].
          change 8%Q with (2 ^ 3)%Q. apply two_pow_le. lia. }
        assert (Hp : (2 ^ k <= 1)%Q).
        { change 1%Q with (2 ^ 0)%Q. apply two_pow_le. lia. }
        split; intros H; exfalso; apply (Qle_not_lt _ _ H).
        -- apply Qlt_le_trans with 8%Q; [exact Hq8|].
           apply Qle_trans with (10 - (1 # 2) * 1)%Q; [discriminate|].
           apply Qplus_le_r. apply Qopp_le_compat.
           apply Qmult_le_l; [reflexivity | exact Hp].
        -- apply Qlt_trans with 8%Q; [exact Hq8 | reflexivity].
    + (* from 16 on the rounded value is at least 2^e *)
      replace (Z.max (e - 52) (-1074)) with (e - 52)%Z by lia.
      assert (H16 : (16 <= 2 ^ e)%Q).
      { change 16%Q with (2 ^ 4)%Q. apply two_pow_le. lia. }
      assert (Hm : (2 ^ 52 <= Num.rne_Q (q * 2 ^ (- (e - 52))))%Z).
      { apply rne_Q_ge_even; [reflexivity|].
        apply Qle_trans with (inject_Z (2 ^ 52)); [discriminate|].
        rewrite two_pow_inject by lia.
        replace 52%Z with (e + - (e - 52))%Z at 1 by lia.
        rewrite two_pow_plus.
        apply Qmult_le_compat_r; [exact Hlo|].
        apply Qlt_le_weak, two_pow_pos. }
      split; intros _.
      * apply Qle_trans with 16%Q; [discriminate|].
        apply Qle_trans with (2 ^ e)%Q; assumption.
      * apply Qle_trans with 16%Q; [discriminate|].
        apply Qle_trans with (2 ^ e)%Q; [exact H16|].
        replace e with (52 + (e - 52))%Z at 1 by lia.
        rewrite two_pow_plus. rewrite <- two_pow_inject by lia.
        apply Qmult_le_compat_r; [|apply Qlt_le_weak, two_pow_pos].
        now rewrite <- Zle_Qle.
Qed.

Lemma ge10_round64 (q : Q) :
  Qle_bool 10 (Num.round64 q) = Qle_bool (10 - 2 ^ (-50)) q.
Proof.
  destruct (Qle_bool (10 - 2 ^ (-50)) q) eqn:E.
  - apply Qle_bool_iff. apply round64_ge10_iff. now apply Qle_bool_iff.
  - apply not_true_is_false. intros H. apply Qle_bool_iff in H.
    apply round64_ge10_iff in H. apply Qle_bool_iff in H. congruence.
Qed.


(** ** The threshold of ten seconds, in samples *)

Lemma Qle_quotients (x y u v : Z) :
  (0 < y)%Z -> (0 < v)%Z ->
  ((inject_Z x / inject_Z y <= inject_Z u / inject_Z v)%Q <->
   (x * v <= u * y)%Z).
Proof.
  intros Hy Hv. destruct y as [|y|y]; try lia. destruct v as [|v|v]; try lia.
  rewrite <- !Qmake_Qdiv. unfold Qle. simpl. reflexivity.
Qed.

Lemma ge10_quotient (samples sampling_rate : Z) :
  (0 < sampling_rate)%Z ->
  Qle_bool 10 (Num.round64 (inject_Z samples / inject_Z sampling_rate)) =
  ((10 * 2 ^ 50 - 1) * sampling_rate <=? 2 ^ 50 * samples)%Z.
Proof.
  intros Hpos. rewrite ge10_round64.
  assert (Hc : (10 - 2 ^ (-50) == inject_Z (10 * 2 ^ 50 - 1) / inject_Z (2 ^ 50))%Q)
    by reflexivity.
  assert (H : (10 - 2 ^ (-50) <= inject_Z samples / inject_Z sampling_rate)%Q
              <-> ((10 * 2 ^ 50 - 1) * sampling_rate <= 2 ^ 50 * samples)%Z).
  { rewrite Hc. rewrite Qle_quotients by (assumption || reflexivity).
    split; intros H; lia. }
  destruct ((10 * 2 ^ 50 - 1) * sampling_rate <=? 2 ^ 50 * samples)%Z eqn:E.
  - apply Z.leb_le in E. apply Qle_bool_iff. now apply H.
  - apply Z.leb_gt in E. apply not_true_is_false. intros H'.
    apply Qle_bool_iff in H'. apply H in H'. lia.
Qed.

Lemma ge10_samples (samples sampling_rate : Z) :
  (0 < sampling_rate < 2 ^ 50)%Z ->
  Qle_bool 10 (Num.round64 (inject_Z samples / inject_Z sampling_rate)) =
  (10 * sampling_rate <=? samples)%Z.
Proof.
  intros [Hpos Hbound]. rewrite ge10_quotient by assumption.
  change (2 ^ 50)%Z with 1125899906842624%Z in *.
  destruct (10 * sampling_rate <=? samples)%Z eqn:E.
  - apply Z.leb_le in E. apply Z.leb_le. lia.
  - apply Z.leb_gt in E. apply Z.leb_gt. lia.
Qed.

Lemma below10_negative_rate (samples : nat) (sampling_rate : Z) :
  (sampling_rate < 0)%Z ->
  Qle_bool 10 (Num.round64 (inject_Z (Z.of_nat samples) / inject_Z sampling_rate))
  = false.
Proof.
  intros Hneg. rewrite ge10_round64. apply not_true_is_false. intros H.
  apply Qle_bool_iff in H. revert H. apply Qlt_not_le.
  apply Qle_lt_trans with 0%Q; [|reflexivity].
  destruct sampling_rate as [|p|p]; try lia.
  unfold Qle, Qdiv, Qmult, Qinv. simpl. lia.
Qed.


(** ** Facts about the tests the branches make *)

Lemma interval_not_event (x : string) :
  In x interval_synonyms -> Str.mem x event_synonyms = false.
Proof.
  intros H. simpl in H.
  destruct H as [H|[H|[H|[]]]]; subst x; reflexivity.
Qed.

Lemma mem_false_of_not_in (x : string) (l : list string) :
  ~ In x l -> Str.mem x l = false.
Proof.
  intros H. apply not_true_is_false. intros Hm. apply H.
  now apply mem_true_iff.
Qed.

Lemma prefix_refl (s : string) : prefix s s = true.
Proof.
  induction s as [|a s IH]; simpl.
  - reflexivity.
  - destruct (ascii_dec a a) as [_|Hne]; [exact IH | now destruct Hne].
Qed.

Lemma contains_refl (s : string) : Str.contains s s = true.
Proof.
  destruct s as [|a s]; [reflexivity|].
  unfold Str.contains; fold Str.contains.
  now rewrite prefix_refl.
Qed.

(** A column named exactly "Label" is one whose name contains "Label". *)
Lemma exact_label_is_label_column (cols : list string) :
  Str.mem "Label" cols = true -> no_label_column cols = false.
Proof.
  intros H. apply mem_true_iff in H.
  destruct (no_label_column cols) eqn:E; [|reflexivity].
  rewrite no_label_column_true_iff in E.
  specialize (E "Label" H). rewrite contains_refl in E. discriminate E.
Qed.

Lemma no_label_substring_no_label (cols : list string) :
  (forall c, In c cols -> Str.contains "Label" c = false) ->
  Str.mem "Label" cols = false.
Proof.
  intros H. destruct (Str.mem "Label" cols) eqn:E; [|reflexivity].
  apply exact_label_is_label_column in E.
  apply no_label_column_true_iff in H. congruence.
Qed.

(** ** The durations *)

Lemma frame_duration_unlabelled (int_key : IntKey) (df : DataFrame)
      (sampling_rate : Z) :
  Str.mem "Label" (columns df) = false ->
  sampling_rate <> 0%Z ->
  frame_duration int_key df sampling_rate =
  ([], Return (Num.Fin (Num.round64 (inject_Z (Z.of_nat (nrows df)) /
                                     inject_Z sampling_rate)))).
Proof.
  intros Hlabel Hrate. unfold frame_duration, Num.py_truediv.
  rewrite Hlabel. apply Z.eqb_neq in Hrate. now rewrite Hrate.
Qed.


(** Integer labels: the key 0 is a label on every pandas. *)
Lemma getitem0_integer_labels (int_key : IntKey) (labels : list Z) :
  (In 0%Z labels ->
   value_counts_getitem0 int_key (IntLabels labels) =
   ([], Return (count Z.eqb 0%Z labels))) /\
  (~ In 0%Z labels ->
   value_counts_getitem0 int_key (IntLabels labels) =
   ([], Raise (KeyError "0"))).
Proof.
  unfold value_counts_getitem0.
  destruct (at_label_value_counts Z.eqb Z.eqb_eq "0" 0%Z labels) as [Hin Hout].
  split; intros H; [now rewrite (Hin H) | now rewrite (Hout H)].
Qed.

Lemma epochs_duration_last (d : Epochs) (k : string) (e : DataFrame)
      (sampling_rate : Z) :
  NoDup (keys (d ++ [(k, e)])) ->
  sampling_rate <> 0%Z ->
  epochs_duration (d ++ [(k, e)]) sampling_rate =
  Return (Some (Num.Fin (Num.round64 (inject_Z (Z.of_nat (nrows e)) /
                                      inject_Z sampling_rate)))).
Proof.
  intros Hnodup Hrate. apply Z.eqb_neq in Hrate. unfold epochs_duration.
  rewrite (for_in_last_epoch
             (fun e' => Num.py_truediv (Z.of_nat (nrows e')) sampling_rate)
             d k e Hnodup).
  - unfold Num.py_truediv. now rewrite Hrate.
  - intros e'. unfold Num.py_truediv. rewrite Hrate. eauto.
Qed.

Lemma epochs_duration_zero_rate (e : string * DataFrame) (d : Epochs) :
  epochs_duration (e :: d) 0 = Raise ZeroDivisionError.
Proof.
  destruct e as [k v]. unfold epochs_duration, getitem. simpl.
  now rewrite String.eqb_refl.
Qed.

Lemma nodup_two_keys (k1 k2 : string) (e1 e2 : DataFrame) :
  k1 <> k2 -> NoDup (keys ([(k1, e1)] ++ [(k2, e2)])).
Proof.
  intros Hne. simpl. constructor.
  - intros [H|[]]. now apply Hne.
  - constructor; [intros [] | constructor].
Qed.

(** ** The branches of [rsp_analyze] *)

Section Branches.

Context {World Features : Type}.
Variable warn : Warning -> World -> World.
Variable int_key : IntKey.
Variable rsp_eventrelated : Data -> list (option Q) -> M World Features.
Variable rsp_intervalrelated : Data -> Z -> M World Features.

Local Abbreviation analyze :=
  (rsp_analyze warn int_key rsp_eventrelated rsp_intervalrelated).

Lemma branch_event data sampling_rate method subepoch_rate w :
  Str.mem (Str.lower method) event_synonyms = true ->
  analyze data sampling_rate method subepoch_rate w =
  match collect_colnames data with
  | Return (Some cols) => checked rsp_eventrelated cols data subepoch_rate w
  | Return None => (Raise (UnboundLocalError "colnames"), w)
  | Raise e => (Raise e, w)
  end.
Proof.
  intros H. unfold rsp_analyze, checked. cbv zeta.
  unfold event_synonyms in H. rewrite H.
  unfold bind, lift, ret, raise.
  destruct (collect_colnames data) as [[cols|]|e]; simpl; try reflexivity.
  destruct (no_label_column cols); [reflexivity|].
  destruct (rsp_eventrelated data subepoch_rate w) as [[f|e] w'];
    reflexivity.
Qed.

Lemma branch_interval data sampling_rate method subepoch_rate w :
  Str.mem (Str.lower method) event_synonyms = false ->
  Str.mem (Str.lower method) interval_synonyms = true ->
  analyze data sampling_rate method subepoch_rate w =
  rsp_intervalrelated data sampling_rate w.
Proof.
  intros He Hi. unfold rsp_analyze. cbv zeta.
  unfold event_synonyms in He. unfold interval_synonyms in Hi.
  rewrite He, Hi. unfold bind, lift, ret.
  destruct (rsp_intervalrelated data sampling_rate w) as [[f|e] w'];
    reflexivity.
Qed.

Lemma branch_auto data sampling_rate method subepoch_rate w :
  Str.lower method = "auto" ->
  analyze data sampling_rate method subepoch_rate w =
  match data with
  | DDict d =>
      match epochs_duration d sampling_rate with
      | Return (Some duration) =>
          by_duration rsp_eventrelated rsp_intervalrelated duration data
                      sampling_rate subepoch_rate w
      | Return None => (Raise (UnboundLocalError "duration"), w)
      | Raise e => (Raise e, w)
      end
  | DFrame df =>
      match frame_duration int_key df sampling_rate with
      | (ws, Return duration) =>
          by_duration rsp_eventrelated rsp_intervalrelated duration data
                      sampling_rate subepoch_rate (warned warn ws w)
      | (ws, Raise e) => (Raise e, warned warn ws w)
      end
  | DOther => (Raise (UnboundLocalError "features"), w)
  end.
Proof.
  intros H. unfold rsp_analyze. cbv zeta. rewrite H.
  change (Str.mem "auto" ["event-related"; "event"; "epoch"]) with false.
  change (Str.mem "auto" ["interval-related"; "interval"; "resting-state"])
    with false.
  change (Str.mem "auto" ["auto"]) with true. cbv iota.
  destruct data as [d|df|]; unfold bind, lift, ret, noisy, by_duration.
  - destruct (epochs_duration d sampling_rate) as [[duration|]|e];
      simpl; try reflexivity.
    destruct (Num.ge10 duration).
    + destruct (rsp_intervalrelated (DDict d) sampling_rate w) as [[f|e] w'];
        reflexivity.
    + destruct (rsp_eventrelated (DDict d) subepoch_rate w) as [[f|e] w'];
        reflexivity.
  - destruct (frame_duration int_key df sampling_rate) as [ws [duration|e]];
      simpl; try reflexivity.
    destruct (Num.ge10 duration).
    + destruct (rsp_intervalrelated (DFrame df) sampling_rate
                                    (warned warn ws w))
        as [[f|e] w']; reflexivity.
    + destruct (rsp_eventrelated (DFrame df) subepoch_rate
                                 (warned warn ws w))
        as [[f|e] w']; reflexivity.
  - reflexivity.
Qed.

Lemma by_duration_fin q data sampling_rate subepoch_rate w :
  by_duration rsp_eventrelated rsp_intervalrelated (Num.Fin q) data
              sampling_rate subepoch_rate w =
  (if Qle_bool 10%Q q then rsp_intervalrelated data sampling_rate w
   else rsp_eventrelated data subepoch_rate w).
Proof.
  unfold by_duration. simpl. now destruct (Qle_bool 10%Q q).
Qed.

Lemma branch_unknown data sampling_rate method subepoch_rate w :
  Str.mem (Str.lower method) event_synonyms = false ->
  Str.mem (Str.lower method) interval_synonyms = false ->
  Str.mem (Str.lower method) ["auto"] = false ->
  analyze data sampling_rate method subepoch_rate w =
  (Raise (UnboundLocalError "features"), w).
Proof.
  intros He Hi Ha. unfold rsp_analyze. cbv zeta.
  unfold event_synonyms in He. unfold interval_synonyms in Hi.
  now rewrite He, Hi, Ha.
Qed.

End Branches.

(** ** The warnings of the dispatcher's own lines *)


(** ** The dispatch of [rsp_analyze] *)

Section Dispatch.

Context {World Features : Type}.
Variable warn : Warning -> World -> World.
Variable int_key : IntKey.
Variable rsp_eventrelated : Data -> list (option Q) -> M World Features.
Variable rsp_intervalrelated : Data -> Z -> M World Features.

Local Abbreviation analyze :=
  (rsp_analyze warn int_key rsp_eventrelated rsp_intervalrelated).

(** The sanity check of the event-related branch, for data whose column
    names could be collected: the call raises [ValueError] itself exactly
    when none of them contains "Label", and hands over to
    [rsp_eventrelated] otherwise. *)
Lemma event_related_checked data cols sampling_rate method subepoch_rate w :
  In (Str.lower method) event_synonyms ->
  collect_colnames data = Return (Some cols) ->
  ((forall c, In c cols -> Str.contains "Label" c = false) ->
   analyze data sampling_rate method subepoch_rate w =
   (Raise (ValueError wrong_input_msg), w)) /\
  ((exists c, In c cols /\ Str.contains "Label" c = true) ->
   analyze data sampling_rate method subepoch_rate w =
   rsp_eventrelated data subepoch_rate w).
Proof.
  intros Hm Hcols. apply mem_true_iff in Hm.
  rewrite (branch_event _ _ _ _ _ _ _ _ _ Hm), Hcols. unfold checked. split.
  - intros H. apply no_label_column_true_iff in H. now rewrite H.
  - intros [c [Hc Hlabel]].
    destruct (no_label_column cols) eqn:E; [|reflexivity].
    rewrite no_label_column_true_iff in E. rewrite (E c Hc) in Hlabel.
    discriminate.
Qed.

(** C1: in automatic mode, a single table without a "Label" column has the
    duration (row count) / sampling_rate, the binary64 quotient of the two;
    the call hands over to [rsp_intervalrelated] when that duration is at
    least 10 and to [rsp_eventrelated], with the sub-epoch window,
    otherwise.  For a sampling rate below 2^50 that is: when the table has
    at least 10 * sampling_rate rows.  At 100 Hz a table of 500 rows goes
    the event-related way and one of 1500 rows the interval-related way. *)
Theorem auto_table_without_label df sampling_rate method subepoch_rate w :
  Str.lower method = "auto" ->
  Str.mem "Label" (columns df) = false ->
  sampling_rate <> 0%Z ->
  frame_duration int_key df sampling_rate =
    ([], Return (Num.Fin (Num.round64 (inject_Z (Z.of_nat (nrows df)) /
                                       inject_Z sampling_rate)))) /\
  analyze (DFrame df) sampling_rate method subepoch_rate w =
    (if Qle_bool 10%Q (Num.round64 (inject_Z (Z.of_nat (nrows df)) /
                                    inject_Z sampling_rate))
     then rsp_intervalrelated (DFrame df) sampling_rate w
     else rsp_eventrelated (DFrame df) subepoch_rate w) /\
  ((0 < sampling_rate < 2 ^ 50)%Z ->
   analyze (DFrame df) sampling_rate method subepoch_rate w =
   (if (10 * sampling_rate <=? Z.of_nat (nrows df))%Z
    then rsp_intervalrelated (DFrame df) sampling_rate w
    else rsp_eventrelated (DFrame df) subepoch_rate w)) /\
  (sampling_rate = 100%Z -> nrows df = 500 ->
   analyze (DFrame df) sampling_rate method subepoch_rate w =
   rsp_eventrelated (DFrame df) subepoch_rate w) /\
  (sampling_rate = 100%Z -> nrows df = 1500 ->
   analyze (DFrame df) sampling_rate method subepoch_rate w =
   rsp_intervalrelated (DFrame df) sampling_rate w).
Proof.
  intros Hm Hlabel Hrate.
  pose proof (frame_duration_unlabelled int_key df sampling_rate Hlabel Hrate)
    as Hd.
  assert (Hrun : analyze (DFrame df) sampling_rate method subepoch_rate w =
    (if Qle_bool 10%Q (Num.round64 (inject_Z (Z.of_nat (nrows df)) /
                                    inject_Z sampling_rate))
     then rsp_intervalrelated (DFrame df) sampling_rate w
     else rsp_eventrelated (DFrame df) subepoch_rate w)).
  { rewrite (branch_auto _ _ _ _ _ _ _ _ _ Hm), Hd. apply by_duration_fin. }
  assert (Hsamples : (0 < sampling_rate < 2 ^ 50)%Z ->
    analyze (DFrame df) sampling_rate method subepoch_rate w =
    (if (10 * sampling_rate <=? Z.of_nat (nrows df))%Z
     then rsp_intervalrelated (DFrame df) sampling_rate w
     else rsp_eventrelated (DFrame df) subepoch_rate w)).
  { intros Hbound. rewrite Hrun. now rewrite ge10_samples. }
  split; [exact Hd|]. split; [exact Hrun|]. split; [exact Hsamples|]. split.
  - intros Hsr Hn. rewrite Hsamples by (subst; split; reflexivity).
    subst sampling_rate. rewrite Hn. reflexivity.
  - intros Hsr Hn. rewrite Hsamples by (subst; split; reflexivity).
    subst sampling_rate. rewrite Hn. reflexivity.
Qed.

(** C2: with an event-related method and an empty dict of epochs nothing is
    ever assigned to [colnames]: the call ends in [UnboundLocalError], it
    neither raises the [ValueError] of the sanity check nor reaches
    [rsp_eventrelated]. *)
Theorem event_related_empty_mapping sampling_rate method subepoch_rate w :
  In (Str.lower method) event_synonyms ->
  collect_colnames (DDict []) = Return None /\
  analyze (DDict []) sampling_rate method subepoch_rate w =
  (Raise (UnboundLocalError "colnames"), w).
Proof.
  intros Hm. split; [reflexivity|]. apply mem_true_iff in Hm.
  now rewrite (branch_event _ _ _ _ _ _ _ _ _ Hm).
Qed.

(** C3, as the code has it: for a dict of epochs the sanity check looks at
    the columns of the last epoch visited, and at no other. *)
Theorem event_related_mapping_checks_last_epoch
        d k e sampling_rate method subepoch_rate w :
  In (Str.lower method) event_synonyms ->
  NoDup (keys (d ++ [(k, e)])) ->
  collect_colnames (DDict (d ++ [(k, e)])) = Return (Some (columns e)) /\
  analyze (DDict (d ++ [(k, e)])) sampling_rate method subepoch_rate w =
  (if no_label_column (columns e)
   then (Raise (ValueError wrong_input_msg), w)
   else rsp_eventrelated (DDict (d ++ [(k, e)])) subepoch_rate w).
Proof.
  intros Hm Hnodup.
  assert (Hcols : collect_colnames (DDict (d ++ [(k, e)]))
                  = Return (Some (columns e))).
  { unfold collect_colnames.
    apply (for_in_last_epoch (fun e' => Return (columns e')) d k e Hnodup).
    intros e'. now exists (columns e'). }
  split; [exact Hcols|]. apply mem_true_iff in Hm.
  now rewrite (branch_event _ _ _ _ _ _ _ _ _ Hm), Hcols.
Qed.

(** C4: a method that is none of the recognised names (after lowercasing)
    matches no branch; [features] is never assigned and the final
    [return features] ends in [UnboundLocalError].  No [ValueError] is
    raised and the method is not named. *)
Theorem unknown_method_unbound_features
        data sampling_rate method subepoch_rate w :
  ~ recognised method ->
  analyze data sampling_rate method subepoch_rate w =
  (Raise (UnboundLocalError "features"), w).
Proof.
  intros H. unfold recognised in H. apply branch_unknown.
  - apply mem_false_of_not_in. tauto.
  - apply mem_false_of_not_in. tauto.
  - apply mem_false_of_not_in. simpl. intuition congruence.
Qed.

(** C5: in automatic mode, a dict of epochs has the duration
    (row count of the last epoch visited) / sampling_rate, the binary64
    quotient of the two, and the threshold of 10 selects between the two
    analyses: for a sampling rate below 2^50, the interval-related one when
    the last epoch has at least 10 * sampling_rate rows. *)
Theorem auto_mapping_last_epoch d k e sampling_rate method subepoch_rate w :
  Str.lower method = "auto" ->
  NoDup (keys (d ++ [(k, e)])) ->
  sampling_rate <> 0%Z ->
  epochs_duration (d ++ [(k, e)]) sampling_rate =
    Return (Some (Num.Fin (Num.round64 (inject_Z (Z.of_nat (nrows e)) /
                                        inject_Z sampling_rate)))) /\
  analyze (DDict (d ++ [(k, e)])) sampling_rate method subepoch_rate w =
    (if Qle_bool 10%Q (Num.round64 (inject_Z (Z.of_nat (nrows e)) /
                                    inject_Z sampling_rate))
     then rsp_intervalrelated (DDict (d ++ [(k, e)])) sampling_rate w
     else rsp_eventrelated (DDict (d ++ [(k, e)])) subepoch_rate w) /\
  ((0 < sampling_rate < 2 ^ 50)%Z ->
   analyze (DDict (d ++ [(k, e)])) sampling_rate method subepoch_rate w =
   (if (10 * sampling_rate <=? Z.of_nat (nrows e))%Z
    then rsp_intervalrelated (DDict (d ++ [(k, e)])) sampling_rate w
    else rsp_eventrelated (DDict (d ++ [(k, e)])) subepoch_rate w)).
Proof.
  intros Hm Hnodup Hrate.
  pose proof (epochs_duration_last d k e sampling_rate Hnodup Hrate) as Hd.
  assert (Hrun :
    analyze (DDict (d ++ [(k, e)])) sampling_rate method subepoch_rate w =
    (if Qle_bool 10%Q (Num.round64 (inject_Z (Z.of_nat (nrows e)) /
                                    inject_Z sampling_rate))
     then rsp_intervalrelated (DDict (d ++ [(k, e)])) sampling_rate w
     else rsp_eventrelated (DDict (d ++ [(k, e)])) subepoch_rate w)).
  { rewrite (branch_auto _ _ _ _ _ _ _ _ _ Hm), Hd. apply by_duration_fin. }
  split; [exact Hd|]. split; [exact Hrun|].
  intros Hbound. rewrite Hrun. now rewrite ge10_samples.
Qed.

(** C6: with integer labels the key 0 of line 104 is a label, not the first
    position.  When no row is labelled 0 the call ends in [KeyError]; when
    some are, the epoch length taken is the number of rows labelled 0, not
    the count of the most frequent label. *)
Theorem auto_integer_labels_lookup
        df labels sampling_rate method subepoch_rate w :
  Str.lower method = "auto" ->
  Str.mem "Label" (columns df) = true ->
  label_values df = IntLabels labels ->
  (~ In 0%Z labels ->
   analyze (DFrame df) sampling_rate method subepoch_rate w =
   (Raise (KeyError "0"), w)) /\
  (In 0%Z labels ->
   value_counts_getitem0 int_key (label_values df) =
   ([], Return (count Z.eqb 0%Z labels))).
Proof.
  intros Hm Hlabel Hvalues.
  destruct (getitem0_integer_labels int_key labels) as [Hin Hout]. split.
  - intros H. rewrite (branch_auto _ _ _ _ _ _ _ _ _ Hm).
    unfold frame_duration. rewrite Hlabel, Hvalues, (Hout H). reflexivity.
  - intros H. rewrite Hvalues. exact (Hin H).
Qed.

(** On pandas 3 the key 0 is a label for string labels too, and the
    automatic mode ends in [KeyError] on every table with a "Label"
    column of strings. *)
Lemma auto_string_labels_label_only
      df labels sampling_rate method subepoch_rate w :
  int_key = LabelOnly ->
  Str.lower method = "auto" ->
  Str.mem "Label" (columns df) = true ->
  label_values df = StrLabels labels ->
  analyze (DFrame df) sampling_rate method subepoch_rate w =
  (Raise (KeyError "0"), w).
Proof.
  intros Hkey Hm Hlabel Hvalues. rewrite (branch_auto _ _ _ _ _ _ _ _ _ Hm).
  unfold frame_duration. rewrite Hlabel, Hvalues, Hkey. reflexivity.
Qed.

(** C7: with an interval-related method the call is the call of
    [rsp_intervalrelated] on the data and the sampling rate, whatever the
    data is: nothing is checked and nothing is raised on the way. *)
Theorem interval_related_delegates data sampling_rate method subepoch_rate w :
  In (Str.lower method) interval_synonyms ->
  analyze data sampling_rate method subepoch_rate w =
  rsp_intervalrelated data sampling_rate w.
Proof.
  intros Hm. apply branch_interval.
  - now apply interval_not_event.
  - now apply mem_true_iff.
Qed.



(** C10: in automatic mode an empty dict never assigns [duration] and the
    call ends in [UnboundLocalError] instead of returning features.  More
    generally the automatic branch reaches an analysis only for a dict
    with at least one epoch or for a single table: on any other data it
    ends in [UnboundLocalError]. *)
Theorem auto_empty_mapping_unbound sampling_rate method subepoch_rate w :
  Str.lower method = "auto" ->
  epochs_duration [] sampling_rate = Return None /\
  analyze (DDict []) sampling_rate method subepoch_rate w =
    (Raise (UnboundLocalError "duration"), w) /\
  (forall data,
     (forall e d, data <> DDict (e :: d)) ->
     (forall df, data <> DFrame df) ->
     exists name,
       analyze data sampling_rate method subepoch_rate w =
       (Raise (UnboundLocalError name), w)).
Proof.
  intros Hm. split; [reflexivity|]. split.
  - now rewrite (branch_auto _ _ _ _ _ _ _ _ _ Hm).
  - intros data Hdict Hframe. rewrite (branch_auto _ _ _ _ _ _ _ _ _ Hm).
    destruct data as [d|df|].
    + destruct d as [|e d]; [simpl; eauto|].
      exfalso. now apply (Hdict e d).
    + exfalso. now apply (Hframe df).
    + eauto.
Qed.

End Dispatch.

(** ** The properties at concrete calls *)

Lemma auto_table_without_label_witness :
  Str.lower "auto" = "auto" /\
  Str.mem "Label" ["RSP_Clean"; "RSP_Rate"] = false /\
  (100 <> 0)%Z /\
  Demo.analyze (Demo.table ["RSP_Clean"; "RSP_Rate"] 500 []) 100 "auto"
               Demo.no_subepoch [] =
  Demo.rsp_eventrelated (Demo.table ["RSP_Clean"; "RSP_Rate"] 500 [])
                        Demo.no_subepoch [].
Proof.
  assert (Hrate : (100 <> 0)%Z) by discriminate.
  split; [reflexivity|]. split; [reflexivity|]. split; [exact Hrate|].
  exact (proj1 (proj2 (proj2 (proj2
    (auto_table_without_label Demo.warn PositionSilent
       Demo.rsp_eventrelated Demo.rsp_intervalrelated
       (mkDataFrame ["RSP_Clean"; "RSP_Rate"] 500 (StrLabels [])) 100 "auto"
       Demo.no_subepoch [] eq_refl eq_refl Hrate)))) eq_refl eq_refl).
Defined.

Lemma event_related_empty_mapping_witness :
  In (Str.lower "event-related") event_synonyms /\
  Demo.analyze (DDict []) 100 "event-related" Demo.no_subepoch [] =
  (Raise (UnboundLocalError "colnames"), []).
Proof.
  assert (Hm : In (Str.lower "event-related") event_synonyms)
    by (left; reflexivity).
  split; [exact Hm|].
  exact (proj2
    (event_related_empty_mapping Demo.warn PositionSilent
       Demo.rsp_eventrelated Demo.rsp_intervalrelated
       100 "event-related" Demo.no_subepoch [] Hm)).
Defined.

(** C3 fails as stated: the first epoch has a "Label" column, yet the
    sanity check, which only sees the columns of the second epoch, raises. *)
Lemma not_every_epoch_checked :
  ~ checks_every_epoch Demo.label_in_first_epoch_only /\
  collect_colnames (DDict Demo.label_in_first_epoch_only) =
    Return (Some ["RSP_Rate"]) /\
  no_label_column (columns_of_every_epoch Demo.label_in_first_epoch_only) =
    false /\
  Demo.analyze (DDict Demo.label_in_first_epoch_only) 100 "event-related"
               Demo.no_subepoch [] =
  (Raise (ValueError wrong_input_msg), []).
Proof.
  split; [|repeat split; reflexivity].
  intros H.
  specialize (H ["RSP_Rate"] eq_refl "1" (Demo.epoch ["Label"; "RSP_Rate"] 3)
                "Label" (or_introl eq_refl) (or_introl eq_refl)).
  simpl in H. destruct H as [H|[]]. discriminate H.
Qed.

Lemma event_related_mapping_checks_last_epoch_witness :
  In (Str.lower "Epoch") event_synonyms /\
  NoDup (keys ([("1", Demo.epoch ["Label"; "RSP_Rate"] 3)] ++
               [("2", Demo.epoch ["RSP_Rate"] 3)])) /\
  Demo.analyze (DDict ([("1", Demo.epoch ["Label"; "RSP_Rate"] 3)] ++
                       [("2", Demo.epoch ["RSP_Rate"] 3)]))
               100 "Epoch" Demo.no_subepoch [] =
  (if no_label_column (columns (Demo.epoch ["RSP_Rate"] 3))
   then (Raise (ValueError wrong_input_msg), [])
   else Demo.rsp_eventrelated
          (DDict ([("1", Demo.epoch ["Label"; "RSP_Rate"] 3)] ++
                  [("2", Demo.epoch ["RSP_Rate"] 3)]))
          Demo.no_subepoch []).
Proof.
  assert (Hm : In (Str.lower "Epoch") event_synonyms)
    by (right; right; left; reflexivity).
  assert (Hnodup : NoDup (keys ([("1", Demo.epoch ["Label"; "RSP_Rate"] 3)] ++
                                [("2", Demo.epoch ["RSP_Rate"] 3)]))).
  { simpl. constructor.
    - intros [H|[]]. discriminate H.
    - constructor; [intros [] | constructor]. }
  split; [exact Hm|]. split; [exact Hnodup|].
  exact (proj2
    (event_related_mapping_checks_last_epoch Demo.warn PositionSilent
       Demo.rsp_eventrelated Demo.rsp_intervalrelated
       [("1", Demo.epoch ["Label"; "RSP_Rate"] 3)] "2"
       (Demo.epoch ["RSP_Rate"] 3) 100 "Epoch" Demo.no_subepoch [] Hm Hnodup)).
Defined.

Lemma unknown_method_unbound_features_witness :
  ~ recognised "peak-related" /\
  Demo.analyze (Demo.table ["RSP_Rate"] 500 []) 100 "peak-related"
               Demo.no_subepoch [] =
  (Raise (UnboundLocalError "features"), []).
Proof.
  assert (Hm : ~ recognised "peak-related").
  { unfold recognised. simpl.
    intros [[H|[H|[H|[]]]]|[[H|[H|[H|[]]]]|H]]; discriminate H. }
  split; [exact Hm|].
  exact (unknown_method_unbound_features Demo.warn PositionSilent
           Demo.rsp_eventrelated Demo.rsp_intervalrelated
           (Demo.table ["RSP_Rate"] 500 []) 100
           "peak-related" Demo.no_subepoch [] Hm).
Defined.

Lemma auto_mapping_last_epoch_witness :
  Str.lower "AUTO" = "auto" /\
  NoDup (keys ([("1", Demo.epoch ["RSP_Rate"; "Label"] 100)] ++
               [("2", Demo.epoch ["RSP_Rate"; "Label"] 2000)])) /\
  (100 <> 0)%Z /\
  (0 < 100 < 2 ^ 50)%Z /\
  Demo.analyze (DDict ([("1", Demo.epoch ["RSP_Rate"; "Label"] 100)] ++
                       [("2", Demo.epoch ["RSP_Rate"; "Label"] 2000)]))
               100 "AUTO" Demo.no_subepoch [] =
  (if (10 * 100 <=?
       Z.of_nat (nrows (Demo.epoch ["RSP_Rate"; "Label"] 2000)))%Z
   then Demo.rsp_intervalrelated
          (DDict ([("1", Demo.epoch ["RSP_Rate"; "Label"] 100)] ++
                  [("2", Demo.epoch ["RSP_Rate"; "Label"] 2000)])) 100 []
   else Demo.rsp_eventrelated
          (DDict ([("1", Demo.epoch ["RSP_Rate"; "Label"] 100)] ++
                  [("2", Demo.epoch ["RSP_Rate"; "Label"] 2000)]))
          Demo.no_subepoch []).
Proof.
  assert (Hrate : (100 <> 0)%Z) by discriminate.
  assert (Hbound : (0 < 100 < 2 ^ 50)%Z) by (split; reflexivity).
  assert (Hnodup : NoDup (keys ([("1", Demo.epoch ["RSP_Rate"; "Label"] 100)] ++
                                [("2", Demo.epoch ["RSP_Rate"; "Label"] 2000)]))).
  { simpl. constructor.
    - intros [H|[]]. discriminate H.
    - constructor; [intros [] | constructor]. }
  split; [reflexivity|]. split; [exact Hnodup|]. split; [exact Hrate|].
  split; [exact Hbound|].
  exact (proj2 (proj2
    (auto_mapping_last_epoch Demo.warn PositionSilent
       Demo.rsp_eventrelated Demo.rsp_intervalrelated
       [("1", Demo.epoch ["RSP_Rate"; "Label"] 100)] "2"
       (Demo.epoch ["RSP_Rate"; "Label"] 2000) 100 "AUTO" Demo.no_subepoch []
       eq_refl Hnodup Hrate)) Hbound).
Defined.

Lemma auto_integer_labels_lookup_witness :
  Str.lower "auto" = "auto" /\
  Str.mem "Label" ["RSP_Rate"; "Label"] = true /\
  ~ In 0%Z [1; 1; 1; 2; 2]%Z /\
  Demo.analyze (DFrame (Demo.five_rows (IntLabels [1; 1; 1; 2; 2]%Z)))
               100 "auto" Demo.no_subepoch [] =
  (Raise (KeyError "0"), []).
Proof.
  assert (Hzero : ~ In 0%Z [1; 1; 1; 2; 2]%Z).
  { intros [H|[H|[H|[H|[H|[]]]]]]; discriminate H. }
  split; [reflexivity|]. split; [reflexivity|]. split; [exact Hzero|].
  exact (proj1
    (auto_integer_labels_lookup Demo.warn PositionSilent
       Demo.rsp_eventrelated Demo.rsp_intervalrelated
       (Demo.five_rows (IntLabels [1; 1; 1; 2; 2]%Z)) [1; 1; 1; 2; 2]%Z
       100 "auto" Demo.no_subepoch [] eq_refl eq_refl eq_refl) Hzero).
Defined.

Lemma interval_related_delegates_witness :
  In (Str.lower "Resting-State") interval_synonyms /\
  Demo.analyze DOther 0 "Resting-State" Demo.no_subepoch [] =
  Demo.rsp_intervalrelated DOther 0 [].
Proof.
  assert (Hm : In (Str.lower "Resting-State") interval_synonyms)
    by (right; right; left; reflexivity).
  split; [exact Hm|].
  exact (interval_related_delegates Demo.warn PositionSilent
           Demo.rsp_eventrelated Demo.rsp_intervalrelated
           DOther 0 "Resting-State" Demo.no_subepoch [] Hm).
Defined.


Lemma auto_empty_mapping_unbound_witness :
  Str.lower "auto" = "auto" /\
  Demo.analyze (DDict []) 100 "auto" Demo.no_subepoch [] =
  (Raise (UnboundLocalError "duration"), []).
Proof.
  split; [reflexivity|].
  exact (proj1 (proj2
    (auto_empty_mapping_unbound Demo.warn PositionSilent
       Demo.rsp_eventrelated Demo.rsp_intervalrelated
       100 "auto" Demo.no_subepoch [] eq_refl))).
Defined.

(** ** The calls of the specification's examples, run on [Demo] *)

Example spec_example_500_rows :
  Demo.analyze (Demo.table ["RSP_Clean"; "RSP_Rate"] 500 []) 100 "auto"
               Demo.no_subepoch [] =
  (Return "event-related features", ["rsp_eventrelated"]).
Proof. reflexivity. Qed.

Example spec_example_1500_rows :
  Demo.analyze (Demo.table ["RSP_Clean"; "RSP_Rate"] 1500 []) 100 "auto"
               Demo.no_subepoch [] =
  (Return "interval-related features", ["rsp_intervalrelated"]).
Proof. reflexivity. Qed.

Example mixed_case_method :
  Demo.analyze (DDict Demo.short_then_long) 100 "Event-Related"
               Demo.no_subepoch [] =
  (Return "event-related features", ["rsp_eventrelated"]).
Proof. reflexivity. Qed.

Example last_epoch_decides :
  Demo.analyze (DDict Demo.short_then_long) 100 "auto" Demo.no_subepoch [] =
  (Return "interval-related features", ["rsp_intervalrelated"]).
Proof. reflexivity. Qed.

Example label_column_without_rows :
  Demo.analyze (Demo.table ["RSP_Rate"; "Label"] 0 []) 100 "auto"
               Demo.no_subepoch [] =
  (Raise IndexError, []).
Proof. reflexivity. Qed.

Example zero_sampling_rate :
  Demo.analyze (Demo.table ["RSP_Rate"] 500 []) 0 "auto" Demo.no_subepoch [] =
  (Raise ZeroDivisionError, []).
Proof. reflexivity. Qed.

(** The rounding of the quotient shows from 2^50 Hz on: one row short of
    ten seconds, the binary64 duration is 10. *)
Example rounded_up_to_ten_seconds :
  Num.round64 (inject_Z (10 * 2 ^ 50 - 1) / inject_Z (2 ^ 50)) =
  Num.round64 10 /\
  Qle_bool 10 (Num.round64 (inject_Z (10 * 2 ^ 50 - 1) / inject_Z (2 ^ 50)))
  = true /\
  Qle_bool 10 (Num.round64 (inject_Z (10 * 2 ^ 49 - 1) / inject_Z (2 ^ 49)))
  = false.
Proof. vm_compute. repeat split. Qed.

(** Integer labels with some rows labelled 0: the epoch length taken is the
    one row labelled 0, not the three rows of the most frequent label. *)
Example integer_labels_count_of_zero :
  frame_duration PositionSilent (Demo.five_rows (IntLabels [0; 1; 1; 1; 2]%Z))
                 1 =
  ([], Return (Num.Fin (Num.round64 1))).
Proof. reflexivity. Qed.

(** * Further properties of the dispatch *)

(** ** Edge cases and the relation between the modes *)

Section Modes.

Context {World Features : Type}.
Variable warn : Warning -> World -> World.
Variable int_key : IntKey.
Variable rsp_eventrelated : Data -> list (option Q) -> M World Features.
Variable rsp_intervalrelated : Data -> Z -> M World Features.

Local Abbreviation analyze :=
  (rsp_analyze warn int_key rsp_eventrelated rsp_intervalrelated).

(** X1: with an event-related method and a single table, the call raises
    the [ValueError] of the sanity check when no column name of the table
    contains "Label", and is the call of [rsp_eventrelated] when one does. *)
Theorem event_related_table_sanity_check
        df sampling_rate method subepoch_rate w :
  In (Str.lower method) event_synonyms ->
  ((forall c, In c (columns df) -> Str.contains "Label" c = false) ->
   analyze (DFrame df) sampling_rate method subepoch_rate w =
   (Raise (ValueError wrong_input_msg), w)) /\
  ((exists c, In c (columns df) /\ Str.contains "Label" c = true) ->
   analyze (DFrame df) sampling_rate method subepoch_rate w =
   rsp_eventrelated (DFrame df) subepoch_rate w).
Proof.
  intros Hm. apply mem_true_iff in Hm.
  rewrite (branch_event _ _ _ _ _ _ _ _ _ Hm). simpl. unfold checked. split.
  - intros H. apply no_label_column_true_iff in H. now rewrite H.
  - intros [c [Hc Hlabel]].
    destruct (no_label_column (columns df)) eqn:E; [|reflexivity].
    rewrite no_label_column_true_iff in E. rewrite (E c Hc) in Hlabel.
    discriminate Hlabel.
Qed.

(** X2: the sanity check looks for "Label" inside a column name, the
    automatic branch for a column named "Label": every table the automatic
    branch takes as labelled passes the sanity check of the event-related
    branch. *)
Theorem exact_label_column_passes_sanity_check
        df sampling_rate method subepoch_rate w :
  In (Str.lower method) event_synonyms ->
  Str.mem "Label" (columns df) = true ->
  analyze (DFrame df) sampling_rate method subepoch_rate w =
  rsp_eventrelated (DFrame df) subepoch_rate w.
Proof.
  intros Hm Hlabel. apply mem_true_iff in Hm.
  rewrite (branch_event _ _ _ _ _ _ _ _ _ Hm). simpl. unfold checked.
  now rewrite (exact_label_is_label_column _ Hlabel).
Qed.

(** X3: in automatic mode a sampling rate of 0 ends in
    [ZeroDivisionError], for a table without a "Label" column and for a
    dict with at least one epoch; no analysis is called. *)
Theorem auto_zero_sampling_rate method subepoch_rate w :
  Str.lower method = "auto" ->
  (forall df, Str.mem "Label" (columns df) = false ->
     analyze (DFrame df) 0 method subepoch_rate w =
     (Raise ZeroDivisionError, w)) /\
  (forall e d,
     analyze (DDict (e :: d)) 0 method subepoch_rate w =
     (Raise ZeroDivisionError, w)).
Proof.
  intros Hm. split.
  - intros df Hlabel. rewrite (branch_auto _ _ _ _ _ _ _ _ _ Hm).
    unfold frame_duration. now rewrite Hlabel.
  - intros e d. rewrite (branch_auto _ _ _ _ _ _ _ _ _ Hm).
    now rewrite epochs_duration_zero_rate.
Qed.

(** X4: the duration is a binary64 quotient.  For a positive sampling
    rate, a table without a "Label" column goes to the interval-related
    analysis exactly when rows / sampling_rate is at least 10 - 2^-50,
    the least quotient that rounds to 10; for a sampling rate below 2^50
    that is: exactly when it has at least 10 * sampling_rate rows. *)
Theorem auto_table_threshold_in_samples
        df sampling_rate method subepoch_rate w :
  Str.lower method = "auto" ->
  Str.mem "Label" (columns df) = false ->
  (0 < sampling_rate)%Z ->
  analyze (DFrame df) sampling_rate method subepoch_rate w =
    (if ((10 * 2 ^ 50 - 1) * sampling_rate <=?
         2 ^ 50 * Z.of_nat (nrows df))%Z
     then rsp_intervalrelated (DFrame df) sampling_rate w
     else rsp_eventrelated (DFrame df) subepoch_rate w) /\
  ((sampling_rate < 2 ^ 50)%Z ->
   analyze (DFrame df) sampling_rate method subepoch_rate w =
   (if (10 * sampling_rate <=? Z.of_nat (nrows df))%Z
    then rsp_intervalrelated (DFrame df) sampling_rate w
    else rsp_eventrelated (DFrame df) subepoch_rate w)).
Proof.
  intros Hm Hlabel Hpos.
  rewrite (branch_auto _ _ _ _ _ _ _ _ _ Hm).
  rewrite (frame_duration_unlabelled int_key df sampling_rate Hlabel) by lia.
  simpl. rewrite by_duration_fin. split.
  - now rewrite ge10_quotient.
  - intros Hbound. now rewrite ge10_samples.
Qed.

(** X5: a negative sampling rate makes every duration negative or zero:
    in automatic mode a table without a "Label" column and a dict of
    epochs always go to the event-related analysis. *)
Theorem auto_negative_sampling_rate sampling_rate method subepoch_rate w :
  Str.lower method = "auto" ->
  (sampling_rate < 0)%Z ->
  (forall df, Str.mem "Label" (columns df) = false ->
     analyze (DFrame df) sampling_rate method subepoch_rate w =
     rsp_eventrelated (DFrame df) subepoch_rate w) /\
  (forall d k e, NoDup (keys (d ++ [(k, e)])) ->
     analyze (DDict (d ++ [(k, e)])) sampling_rate method subepoch_rate w =
     rsp_eventrelated (DDict (d ++ [(k, e)])) subepoch_rate w).
Proof.
  intros Hm Hneg. split.
  - intros df Hlabel. rewrite (branch_auto _ _ _ _ _ _ _ _ _ Hm).
    rewrite (frame_duration_unlabelled int_key df sampling_rate Hlabel)
      by lia.
    simpl. rewrite by_duration_fin. now rewrite below10_negative_rate.
  - intros d k e Hnodup. rewrite (branch_auto _ _ _ _ _ _ _ _ _ Hm).
    rewrite (epochs_duration_last d k e sampling_rate Hnodup) by lia.
    rewrite by_duration_fin. now rewrite below10_negative_rate.
Qed.

(** X6: the event-related branch never reads [sampling_rate]: the call is
    the same for every sampling rate, 0 included. *)
Theorem event_related_ignores_sampling_rate
        data sampling_rate sampling_rate' method subepoch_rate w :
  In (Str.lower method) event_synonyms ->
  analyze data sampling_rate method subepoch_rate w =
  analyze data sampling_rate' method subepoch_rate w.
Proof.
  intros Hm. apply mem_true_iff in Hm.
  now rewrite !(branch_event _ _ _ _ _ _ _ _ _ Hm).
Qed.

(** X7: the interval-related branch never reads [subepoch_rate]: the call
    is the same for every sub-epoch window. *)
Theorem interval_related_ignores_subepoch_rate
        data sampling_rate method subepoch_rate subepoch_rate' w :
  In (Str.lower method) interval_synonyms ->
  analyze data sampling_rate method subepoch_rate w =
  analyze data sampling_rate method subepoch_rate' w.
Proof.
  intros Hm.
  assert (He := interval_not_event _ Hm). apply mem_true_iff in Hm.
  now rewrite !(branch_interval _ _ _ _ _ _ _ _ _ He Hm).
Qed.

(** X8: the automatic branch does not run the sanity check.  At a
    sampling rate below 2^50, a table of fewer than 10 * sampling_rate
    rows, none of whose column names contains "Label", is handed to
    [rsp_eventrelated] in automatic mode, while an explicit event-related
    method rejects it with [ValueError]. *)
Theorem auto_skips_sanity_check
        df sampling_rate method_auto method_event subepoch_rate w :
  Str.lower method_auto = "auto" ->
  In (Str.lower method_event) event_synonyms ->
  (forall c, In c (columns df) -> Str.contains "Label" c = false) ->
  (0 < sampling_rate < 2 ^ 50)%Z ->
  (Z.of_nat (nrows df) < 10 * sampling_rate)%Z ->
  analyze (DFrame df) sampling_rate method_auto subepoch_rate w =
    rsp_eventrelated (DFrame df) subepoch_rate w /\
  analyze (DFrame df) sampling_rate method_event subepoch_rate w =
    (Raise (ValueError wrong_input_msg), w).
Proof.
  intros Ha He Hcols Hbound Hshort. split.
  - rewrite (branch_auto _ _ _ _ _ _ _ _ _ Ha).
    rewrite (frame_duration_unlabelled int_key df sampling_rate
               (no_label_substring_no_label _ Hcols)) by lia.
    simpl. rewrite by_duration_fin, ge10_samples by assumption.
    apply Z.leb_gt in Hshort. now rewrite Hshort.
  - apply mem_true_iff in He.
    rewrite (branch_event _ _ _ _ _ _ _ _ _ He).
    simpl. unfold checked.
    apply no_label_column_true_iff in Hcols. now rewrite Hcols.
Qed.

(** X9: with an event-related method, data that is neither a table nor a
    dict with at least one epoch never reaches the sanity check:
    [colnames] is unassigned and the call ends in [UnboundLocalError]. *)
Theorem event_related_needs_table_or_epochs
        data sampling_rate method subepoch_rate w :
  In (Str.lower method) event_synonyms ->
  (forall e d, data <> DDict (e :: d)) ->
  (forall df, data <> DFrame df) ->
  analyze data sampling_rate method subepoch_rate w =
  (Raise (UnboundLocalError "colnames"), w).
Proof.
  intros Hm Hdict Hframe. apply mem_true_iff in Hm.
  rewrite (branch_event _ _ _ _ _ _ _ _ _ Hm).
  destruct data as [d|df|].
  - destruct d as [|e d]; [reflexivity|].
    exfalso. now apply (Hdict e d).
  - exfalso. now apply (Hframe df).
  - reflexivity.
Qed.



(** X12: in automatic mode the order of the epochs in the dict decides.
    At a sampling rate below 2^50, of two epochs, one shorter and one at
    least as long as 10 * sampling_rate rows, the one visited last selects
    the analysis: the same two epochs go to the interval-related analysis
    in one order and to the event-related analysis in the other. *)
Theorem auto_mapping_order_dependent
        k1 e1 k2 e2 sampling_rate method subepoch_rate w :
  Str.lower method = "auto" ->
  k1 <> k2 ->
  (0 < sampling_rate < 2 ^ 50)%Z ->
  (Z.of_nat (nrows e1) < 10 * sampling_rate)%Z ->
  (10 * sampling_rate <= Z.of_nat (nrows e2))%Z ->
  analyze (DDict ([(k1, e1)] ++ [(k2, e2)])) sampling_rate method
          subepoch_rate w =
    rsp_intervalrelated (DDict ([(k1, e1)] ++ [(k2, e2)])) sampling_rate w /\
  analyze (DDict ([(k2, e2)] ++ [(k1, e1)])) sampling_rate method
          subepoch_rate w =
    rsp_eventrelated (DDict ([(k2, e2)] ++ [(k1, e1)])) subepoch_rate w.
Proof.
  intros Hm Hne Hbound Hshort Hlong. split.
  - rewrite (branch_auto _ _ _ _ _ _ _ _ _ Hm).
    rewrite (epochs_duration_last [(k1, e1)] k2 e2 sampling_rate
               (nodup_two_keys k1 k2 e1 e2 Hne)) by lia.
    rewrite by_duration_fin, ge10_samples by assumption.
    apply Z.leb_le in Hlong. now rewrite Hlong.
  - rewrite (branch_auto _ _ _ _ _ _ _ _ _ Hm).
    rewrite (epochs_duration_last [(k2, e2)] k1 e1 sampling_rate
               (nodup_two_keys k2 k1 e2 e1 (not_eq_sym Hne))) by lia.
    rewrite by_duration_fin, ge10_samples by assumption.
    apply Z.leb_gt in Hshort. now rewrite Hshort.
Qed.

End Modes.

(** ** These properties at concrete calls *)

Lemma event_related_table_sanity_check_witness :
  In (Str.lower "event") event_synonyms /\
  (forall c, In c ["RSP_Clean"; "RSP_Rate"] ->
             Str.contains "Label" c = false) /\
  Demo.analyze (Demo.table ["RSP_Clean"; "RSP_Rate"] 500 []) 100 "event"
               Demo.no_subepoch [] =
  (Raise (ValueError wrong_input_msg), []).
Proof.
  assert (Hm : In (Str.lower "event") event_synonyms)
    by (right; left; reflexivity).
  assert (Hcols : forall c, In c ["RSP_Clean"; "RSP_Rate"] ->
                            Str.contains "Label" c = false).
  { intros c [<-|[<-|[]]]; reflexivity. }
  split; [exact Hm|]. split; [exact Hcols|].
  exact (proj1
    (event_related_table_sanity_check Demo.warn PositionSilent
       Demo.rsp_eventrelated Demo.rsp_intervalrelated
       (mkDataFrame ["RSP_Clean"; "RSP_Rate"] 500 (StrLabels [])) 100 "event"
       Demo.no_subepoch [] Hm) Hcols).
Defined.

Lemma exact_label_column_passes_sanity_check_witness :
  In (Str.lower "epoch") event_synonyms /\
  Str.mem "Label" ["RSP_Rate"; "Label"] = true /\
  Demo.analyze (Demo.table ["RSP_Rate"; "Label"] 2 ["1"; "2"]) 100 "epoch"
               Demo.no_subepoch [] =
  Demo.rsp_eventrelated (Demo.table ["RSP_Rate"; "Label"] 2 ["1"; "2"])
                        Demo.no_subepoch [].
Proof.
  assert (Hm : In (Str.lower "epoch") event_synonyms)
    by (right; right; left; reflexivity).
  split; [exact Hm|]. split; [reflexivity|].
  exact (exact_label_column_passes_sanity_check Demo.warn PositionSilent
       Demo.rsp_eventrelated Demo.rsp_intervalrelated
           (mkDataFrame ["RSP_Rate"; "Label"] 2 (StrLabels ["1"; "2"])) 100 "epoch"
           Demo.no_subepoch [] Hm eq_refl).
Defined.

Lemma auto_zero_sampling_rate_witness :
  Str.lower "auto" = "auto" /\
  Demo.analyze (DDict Demo.short_then_long) 0 "auto" Demo.no_subepoch [] =
  (Raise ZeroDivisionError, []).
Proof.
  split; [reflexivity|].
  exact (proj2
    (auto_zero_sampling_rate Demo.warn PositionSilent
       Demo.rsp_eventrelated Demo.rsp_intervalrelated
       "auto" Demo.no_subepoch [] eq_refl)
    ("1", Demo.epoch ["RSP_Rate"; "Label"] 100)
    [("2", Demo.epoch ["RSP_Rate"; "Label"] 2000)]).
Defined.

Lemma auto_table_threshold_in_samples_witness :
  Str.lower "auto" = "auto" /\
  Str.mem "Label" ["RSP_Rate"] = false /\
  (0 < 100)%Z /\
  (100 < 2 ^ 50)%Z /\
  Demo.analyze (Demo.table ["RSP_Rate"] 1000 []) 100 "auto"
               Demo.no_subepoch [] =
  (if (10 * 100 <=? Z.of_nat 1000)%Z
   then Demo.rsp_intervalrelated (Demo.table ["RSP_Rate"] 1000 []) 100 []
   else Demo.rsp_eventrelated (Demo.table ["RSP_Rate"] 1000 [])
                              Demo.no_subepoch []).
Proof.
  assert (Hpos : (0 < 100)%Z) by reflexivity.
  assert (Hbound : (100 < 2 ^ 50)%Z) by reflexivity.
  split; [reflexivity|]. split; [reflexivity|]. split; [exact Hpos|].
  split; [exact Hbound|].
  exact (proj2
    (auto_table_threshold_in_samples Demo.warn PositionSilent
       Demo.rsp_eventrelated Demo.rsp_intervalrelated
       (mkDataFrame ["RSP_Rate"] 1000 (StrLabels [])) 100
       "auto" Demo.no_subepoch [] eq_refl eq_refl Hpos) Hbound).
Defined.

Lemma auto_negative_sampling_rate_witness :
  Str.lower "auto" = "auto" /\
  (-100 < 0)%Z /\
  Str.mem "Label" ["RSP_Rate"] = false /\
  Demo.analyze (Demo.table ["RSP_Rate"] 5000 []) (-100) "auto"
               Demo.no_subepoch [] =
  Demo.rsp_eventrelated (Demo.table ["RSP_Rate"] 5000 [])
                        Demo.no_subepoch [].
Proof.
  assert (Hneg : (-100 < 0)%Z) by reflexivity.
  split; [reflexivity|]. split; [exact Hneg|]. split; [reflexivity|].
  exact (proj1
    (auto_negative_sampling_rate Demo.warn PositionSilent
       Demo.rsp_eventrelated Demo.rsp_intervalrelated (-100) "auto" Demo.no_subepoch []
       eq_refl Hneg)
    (mkDataFrame ["RSP_Rate"] 5000 (StrLabels [])) eq_refl).
Defined.

Lemma event_related_ignores_sampling_rate_witness :
  In (Str.lower "event-related") event_synonyms /\
  Demo.analyze (DDict Demo.short_then_long) 100 "event-related"
               Demo.no_subepoch [] =
  Demo.analyze (DDict Demo.short_then_long) 0 "event-related"
               Demo.no_subepoch [].
Proof.
  assert (Hm : In (Str.lower "event-related") event_synonyms)
    by (left; reflexivity).
  split; [exact Hm|].
  exact (event_related_ignores_sampling_rate Demo.warn PositionSilent
       Demo.rsp_eventrelated Demo.rsp_intervalrelated (DDict Demo.short_then_long) 100 0
           "event-related" Demo.no_subepoch [] Hm).
Defined.

Lemma interval_related_ignores_subepoch_rate_witness :
  In (Str.lower "interval") interval_synonyms /\
  Demo.analyze (Demo.table ["RSP_Rate"] 500 []) 100 "interval"
               [None; None] [] =
  Demo.analyze (Demo.table ["RSP_Rate"] 500 []) 100 "interval"
               [Some 1%Q; Some 3%Q] [].
Proof.
  assert (Hm : In (Str.lower "interval") interval_synonyms)
    by (right; left; reflexivity).
  split; [exact Hm|].
  exact (interval_related_ignores_subepoch_rate Demo.warn PositionSilent
       Demo.rsp_eventrelated Demo.rsp_intervalrelated (Demo.table ["RSP_Rate"] 500 []) 100
           "interval" [None; None] [Some 1%Q; Some 3%Q] [] Hm).
Defined.

Lemma auto_skips_sanity_check_witness :
  Str.lower "auto" = "auto" /\
  In (Str.lower "event-related") event_synonyms /\
  (forall c, In c ["RSP_Rate"] -> Str.contains "Label" c = false) /\
  (0 < 100 < 2 ^ 50)%Z /\
  (Z.of_nat 500 < 10 * 100)%Z /\
  Demo.analyze (Demo.table ["RSP_Rate"] 500 []) 100 "auto"
               Demo.no_subepoch [] =
    Demo.rsp_eventrelated (Demo.table ["RSP_Rate"] 500 [])
                          Demo.no_subepoch [] /\
  Demo.analyze (Demo.table ["RSP_Rate"] 500 []) 100 "event-related"
               Demo.no_subepoch [] =
    (Raise (ValueError wrong_input_msg), []).
Proof.
  assert (Hm : In (Str.lower "event-related") event_synonyms)
    by (left; reflexivity).
  assert (Hcols : forall c, In c ["RSP_Rate"] ->
                            Str.contains "Label" c = false).
  { intros c [<-|[]]. reflexivity. }
  assert (Hbound : (0 < 100 < 2 ^ 50)%Z) by (split; reflexivity).
  assert (Hshort : (Z.of_nat 500 < 10 * 100)%Z) by reflexivity.
  split; [reflexivity|]. split; [exact Hm|]. split; [exact Hcols|].
  split; [exact Hbound|]. split; [exact Hshort|].
  exact (auto_skips_sanity_check Demo.warn PositionSilent
           Demo.rsp_eventrelated Demo.rsp_intervalrelated
           (mkDataFrame ["RSP_Rate"] 500 (StrLabels [])) 100
           "auto" "event-related" Demo.no_subepoch []
           eq_refl Hm Hcols Hbound Hshort).
Defined.

Lemma event_related_needs_table_or_epochs_witness :
  In (Str.lower "event") event_synonyms /\
  (forall e d, DOther <> DDict (e :: d)) /\
  (forall df, DOther <> DFrame df) /\
  Demo.analyze DOther 100 "event" Demo.no_subepoch [] =
  (Raise (UnboundLocalError "colnames"), []).
Proof.
  assert (Hm : In (Str.lower "event") event_synonyms)
    by (right; left; reflexivity).
  assert (Hdict : forall e d, DOther <> DDict (e :: d))
    by (intros e d H; discriminate H).
  assert (Hframe : forall df, DOther <> DFrame df)
    by (intros df H; discriminate H).
  split; [exact Hm|]. split; [exact Hdict|]. split; [exact Hframe|].
  exact (event_related_needs_table_or_epochs Demo.warn PositionSilent
       Demo.rsp_eventrelated Demo.rsp_intervalrelated DOther 100 "event" Demo.no_subepoch []
           Hm Hdict Hframe).
Defined.




Lemma auto_mapping_order_dependent_witness :
  Str.lower "auto" = "auto" /\
  "1" <> "2" /\
  (0 < 100 < 2 ^ 50)%Z /\
  (Z.of_nat (nrows (Demo.epoch ["RSP_Rate"; "Label"] 100)) < 10 * 100)%Z /\
  (10 * 100 <= Z.of_nat (nrows (Demo.epoch ["RSP_Rate"; "Label"] 2000)))%Z /\
  Demo.analyze (DDict ([("1", Demo.epoch ["RSP_Rate"; "Label"] 100)] ++
                       [("2", Demo.epoch ["RSP_Rate"; "Label"] 2000)]))
               100 "auto" Demo.no_subepoch [] =
    Demo.rsp_intervalrelated
      (DDict ([("1", Demo.epoch ["RSP_Rate"; "Label"] 100)] ++
              [("2", Demo.epoch ["RSP_Rate"; "Label"] 2000)])) 100 [] /\
  Demo.analyze (DDict ([("2", Demo.epoch ["RSP_Rate"; "Label"] 2000)] ++
                       [("1", Demo.epoch ["RSP_Rate"; "Label"] 100)]))
               100 "auto" Demo.no_subepoch [] =
    Demo.rsp_eventrelated
      (DDict ([("2", Demo.epoch ["RSP_Rate"; "Label"] 2000)] ++
              [("1", Demo.epoch ["RSP_Rate"; "Label"] 100)]))
      Demo.no_subepoch [].
Proof.
  assert (Hne : "1" <> "2") by discriminate.
  assert (Hbound : (0 < 100 < 2 ^ 50)%Z) by (split; reflexivity).
  assert (Hshort : (Z.of_nat (nrows (Demo.epoch ["RSP_Rate"; "Label"] 100))
                    < 10 * 100)%Z) by reflexivity.
  assert (Hlong : (10 * 100 <=
                   Z.of_nat (nrows (Demo.epoch ["RSP_Rate"; "Label"] 2000)))%Z)
    by (intros H; discriminate H).
  split; [reflexivity|]. split; [exact Hne|]. split; [exact Hbound|].
  split; [exact Hshort|]. split; [exact Hlong|].
  exact (auto_mapping_order_dependent Demo.warn PositionSilent
           Demo.rsp_eventrelated Demo.rsp_intervalrelated
           "1" (Demo.epoch ["RSP_Rate"; "Label"] 100)
           "2" (Demo.epoch ["RSP_Rate"; "Label"] 2000)
           100 "auto" Demo.no_subepoch [] eq_refl Hne Hbound Hshort Hlong).
Defined.
